(** * English Teacher Agent: session lifecycle supervisor

    A shallow embedding of [agent.py] and [render_app.py]: the backend
    selector ([create_ollama_session], [create_gemini_session],
    [create_session_with_fallback]), the attempt ([entrypoint],
    [keep_session_alive], [cleanup_resources]), the retry loop
    ([run_agent_with_auto_restart], [signal_handler]) and the two
    [HealthCheckHandler.do_GET] responders.

    Python's module globals, the locals of [entrypoint], the log and the
    calls into LiveKit/Tavus are made explicit: a computation takes a
    store, and returns the new store, the events it produced in order, and
    how it ended. *)

From Stdlib Require Import ZArith List String Ascii Bool Lia QArith DecimalString
  DecimalZ DecimalPos.
Import ListNotations.
Local Open Scope string_scope.
Local Open Scope Z_scope.

(** ** Python values used by the agent *)

(** The exceptions the collaborators raise, all subclasses of [Exception]:
    [livekit.agents._exceptions.APIStatusError] with its [status_code],
    [asyncio.TimeoutError] (raised by [asyncio.wait_for] at expiry), and any
    other [Exception]. [KeyboardInterrupt] is not an [Exception]; it is only
    met by the retry loop, see [AppResult]. *)
Inductive exn : Type :=
| APIStatusError (status_code : Z) (message : string)
| TimeoutError
| Exception (message : string).

(** [str(e)], as the f-strings of the log messages print it. *)
Definition str (e : exn) : string :=
  match e with
  | APIStatusError _ m => m
  | TimeoutError => EmptyString
  | Exception m => m
  end.

(** [f"{n}"] for an integer. *)
Definition show (n : Z) : string := NilZero.string_of_int (Z.to_int n).

(** Truthiness of the result of [os.getenv]: [None] and the empty string
    are falsy. *)
Definition truthy (v : option string) : bool :=
  match v with
  | None => false
  | Some s => negb (String.eqb s EmptyString)
  end.

(** The [llm=] argument of [AgentSession]. *)
Inductive LLM : Type :=
| ollama_LLM (model base_url : string)
| google_RealtimeModel (model voice : string) (temperature : Q).

Record AgentSession : Type := { llm : LLM }.

Record AvatarSession : Type :=
  { replica_id : string; persona_id : string; avatar_participant_name : string }.

(** [rtc.ConnectionState] *)
Inductive ConnectionState : Type :=
| CONN_DISCONNECTED | CONN_CONNECTED | CONN_RECONNECTING.

Definition ConnectionState_eqb (a b : ConnectionState) : bool :=
  match a, b with
  | CONN_DISCONNECTED, CONN_DISCONNECTED
  | CONN_CONNECTED, CONN_CONNECTED
  | CONN_RECONNECTING, CONN_RECONNECTING => true
  | _, _ => false
  end.

(** ** Events *)

Inductive Level : Type := DEBUG | INFO | WARNING | ERROR.

(** Calls that leave the process. *)
Inductive Call : Type :=
| new_AgentSession (l : LLM)
| new_AvatarSession (a : AvatarSession)
| avatar_start (a : AvatarSession) (s : AgentSession) (timeout : Z)
| session_start (s : AgentSession)
| session_aclose (s : AgentSession).

Inductive Event : Type :=
| Log (lvl : Level) (msg : string)
| Sleep (seconds : Z)
| Ext (c : Call)
| Signal (signum : Z).

Definition is_call (p : Call -> bool) (e : Event) : bool :=
  match e with Ext c => p c | _ => false end.

Definition is_aclose (c : Call) : bool :=
  match c with session_aclose _ => true | _ => false end.
Definition is_session_start (c : Call) : bool :=
  match c with session_start _ => true | _ => false end.
Definition is_new_AvatarSession (c : Call) : bool :=
  match c with new_AvatarSession _ => true | _ => false end.
Definition is_avatar_start (c : Call) : bool :=
  match c with avatar_start _ _ _ => true | _ => false end.
Definition is_new_AgentSession (c : Call) : bool :=
  match c with new_AgentSession _ => true | _ => false end.

(** How many events of a trace are calls of the given kind. *)
Definition calls (p : Call -> bool) (tr : list Event) : nat :=
  List.length (filter (is_call p) tr).

(** The seconds slept, in order. *)
Fixpoint sleeps (tr : list Event) : list Z :=
  match tr with
  | [] => []
  | Sleep n :: tr' => n :: sleeps tr'
  | _ :: tr' => sleeps tr'
  end.

(** Whether a message was logged at a level. *)
Definition logged (lvl : Level) (msg : string) (tr : list Event) : Prop :=
  In (Log lvl msg) tr.

(** ** Module globals (lines 60-63) *)

Record Globals : Type :=
  { _shutdown_requested : bool; _restart_count : Z }.

Definition _max_restarts : Z := 10.

Definition initial_globals : Globals :=
  {| _shutdown_requested := false; _restart_count := 0 |}.

(** ** Computations *)

(** A computation ends by returning, by raising, or not at all within the
    observed behaviour of the environment ([Pending]: the coroutine is
    still waiting when the observations end). *)
Inductive Res (A : Type) : Type :=
| Ret (a : A)
| Exc (e : exn)
| Pending.
Arguments Ret {A} a.
Arguments Exc {A} e.
Arguments Pending {A}.

Record Run (S A : Type) : Type :=
  { final : S; trace : list Event; outcome : Res A }.
Arguments final {S A} r.
Arguments trace {S A} r.
Arguments outcome {S A} r.

Definition M (S A : Type) : Type := S -> Run S A.

Definition ret {S A} (a : A) : M S A :=
  fun s => {| final := s; trace := []; outcome := Ret a |}.

Definition raise {S A} (e : exn) : M S A :=
  fun s => {| final := s; trace := []; outcome := Exc e |}.

Definition pending {S A} : M S A :=
  fun s => {| final := s; trace := []; outcome := Pending |}.

Definition bind {S A B} (c : M S A) (k : A -> M S B) : M S B :=
  fun s =>
    match c s with
    | {| final := s1; trace := t1; outcome := Ret a |} =>
        match k a s1 with
        | {| final := s2; trace := t2; outcome := o |} =>
            {| final := s2; trace := t1 ++ t2; outcome := o |}
        end
    | {| final := s1; trace := t1; outcome := Exc e |} =>
        {| final := s1; trace := t1; outcome := Exc e |}
    | {| final := s1; trace := t1; outcome := Pending |} =>
        {| final := s1; trace := t1; outcome := Pending |}
    end.

(** [try: c  except Exception as e: h e]. Stores written by [c] before it
    raised are kept, as in Python. *)
Definition try_except {S A} (c : M S A) (h : exn -> M S A) : M S A :=
  fun s =>
    match c s with
    | {| final := s1; trace := t1; outcome := Exc e |} =>
        match h e s1 with
        | {| final := s2; trace := t2; outcome := o |} =>
            {| final := s2; trace := t1 ++ t2; outcome := o |}
        end
    | r => r
    end.

(** [with suppress(Exception): c] *)
Definition suppress {S} (c : M S unit) : M S unit :=
  try_except c (fun _ => ret tt).

Definition emit {S} (e : Event) : M S unit :=
  fun s => {| final := s; trace := [e]; outcome := Ret tt |}.

Definition log {S} (lvl : Level) (msg : string) : M S unit := emit (Log lvl msg).

Definition read {S A} (f : S -> A) : M S A :=
  fun s => {| final := s; trace := []; outcome := Ret (f s) |}.

Definition write {S} (f : S -> S) : M S unit :=
  fun s => {| final := f s; trace := []; outcome := Ret tt |}.

(** A call into a collaborator: recorded, then it returns or raises as the
    environment decides ([None]: returns). *)
Definition call {S} (c : Call) (result : option exn) : M S unit :=
  fun s =>
    {| final := s; trace := [Ext c];
       outcome := match result with None => Ret tt | Some e => Exc e end |}.

Declare Scope py_scope.
Delimit Scope py_scope with py.
Notation "x <- c1 ;; c2" := (bind c1 (fun x => c2))
  (at level 61, c1 at next level, right associativity) : py_scope.
Notation "c1 ;; c2" := (bind c1 (fun _ => c2))
  (at level 61, right associativity) : py_scope.
Local Open Scope py_scope.

(** ** The environment of one attempt *)

(** One turn of the keep-alive loop as the environment plays it: whether a
    SIGINT/SIGTERM is delivered during the 30 second sleep, and what
    sampling the room gives: an exception, no [connection_state] to read
    ([room] falsy or without the attribute), or a state. *)
Record Tick : Type :=
  { delivered : option Z;
    sample : exn + option ConnectionState }.

Record World : Type :=
  { OLLAMA_AVAILABLE : bool;
    ollama_plugin : option unit;
    getenv : string -> option string;
    AgentSession_raises : LLM -> option exn;
    AvatarSession_raises : AvatarSession -> option exn;
    avatar_start_raises : option exn;
    session_start_raises : option exn;
    aclose_raises : option exn;
    ticks : list Tick }.

(** [os.getenv(k, default)] *)
Definition getenv_default (w : World) (k default : string) : string :=
  match getenv w k with Some v => v | None => default end.

(** ** Backend selector (lines 108-159) *)

Section Selector.
Context {S : Type}.
Variable w : World.

Definition create_ollama_session : M S (option AgentSession) :=
  if negb (OLLAMA_AVAILABLE w) || match ollama_plugin w with None => true | Some _ => false end
  then
    log INFO "Ollama not available, skipping Ollama session creation" ;;
    ret None
  else
    try_except
      (let ollama_model := getenv_default w "OLLAMA_MODEL" "llama3" in
       let ollama_base_url := getenv_default w "OLLAMA_BASE_URL" "http://localhost:11434" in
       log INFO ("Attempting to connect to Ollama server at " ++ ollama_base_url
                 ++ " with model: " ++ ollama_model) ;;
       let l := ollama_LLM ollama_model ollama_base_url in
       call (new_AgentSession l) (AgentSession_raises w l) ;;
       let session := {| llm := l |} in
       log INFO "[SUCCESS] Ollama session created successfully" ;;
       ret (Some session))
      (fun e =>
         log WARNING ("Failed to create Ollama session: " ++ str e) ;;
         ret None).

Definition gemini_llm : LLM :=
  google_RealtimeModel "gemini-2.0-flash-exp" "Puck" (8 # 10).

Definition create_gemini_session : M S (option AgentSession) :=
  try_except
    (call (new_AgentSession gemini_llm) (AgentSession_raises w gemini_llm) ;;
     let session := {| llm := gemini_llm |} in
     log INFO "[SUCCESS] Google Realtime model session created successfully" ;;
     ret (Some session))
    (fun e =>
       log ERROR ("Failed to create Gemini session: " ++ str e) ;;
       ret None).

Definition create_session_with_fallback : M S (option AgentSession) :=
  session <- create_ollama_session ;;
  match session with
  | None =>
      log INFO "Falling back to Gemini as primary LLM" ;;
      create_gemini_session
  | Some _ => ret session
  end.

(** The candidates in priority order, as the selector lists them. *)
Inductive BackendCandidate : Type := LocalModel | RemoteModel.

Definition candidates : list BackendCandidate := [LocalModel; RemoteModel].

Definition construct (c : BackendCandidate) : M S (option AgentSession) :=
  match c with
  | LocalModel => create_ollama_session
  | RemoteModel => create_gemini_session
  end.

End Selector.

(** What a candidate's construction gives when run on its own: the session,
    or [None] when it failed. Construction reads no store, so the unit store
    serves. *)
Definition built (w : World) (c : BackendCandidate) : option AgentSession :=
  match outcome (construct (S := unit) w c tt) with
  | Ret r => r
  | _ => None
  end.

(** The [llm=] argument with which a candidate constructs its session
    (lines 116-124 and 137-141). *)
Definition candidate_llm (w : World) (c : BackendCandidate) : LLM :=
  match c with
  | LocalModel =>
      ollama_LLM (getenv_default w "OLLAMA_MODEL" "llama3")
                 (getenv_default w "OLLAMA_BASE_URL" "http://localhost:11434")
  | RemoteModel => gemini_llm
  end.

(** Whether the environment lets a candidate's construction succeed: for
    the local model the Ollama plug-in must have been imported, and for
    both [AgentSession] must accept the candidate's model without
    raising. *)
Definition succeeds (w : World) (c : BackendCandidate) : bool :=
  match c with
  | LocalModel =>
      OLLAMA_AVAILABLE w
      && match ollama_plugin w with Some _ => true | None => false end
  | RemoteModel => true
  end
  && match AgentSession_raises w (candidate_llm w c) with
     | None => true
     | Some _ => false
     end.

(** ** The attempt: [entrypoint] and its helpers *)

(** The store of one run of [entrypoint]: the module globals and the
    function's locals. [avatar_initialized] is bound at line 205 and read
    only after that. *)
Record Frame : Type :=
  { globals : Globals;
    session : option AgentSession;
    avatar : option AvatarSession;
    tavus_error : option exn;
    avatar_initialized : bool }.

Definition enter (g : Globals) : Frame :=
  {| globals := g; session := None; avatar := None; tavus_error := None;
     avatar_initialized := false |}.

Definition set_globals (g : Globals) (f : Frame) : Frame :=
  {| globals := g; session := session f; avatar := avatar f;
     tavus_error := tavus_error f; avatar_initialized := avatar_initialized f |}.
Definition set_session (v : option AgentSession) (f : Frame) : Frame :=
  {| globals := globals f; session := v; avatar := avatar f;
     tavus_error := tavus_error f; avatar_initialized := avatar_initialized f |}.
Definition set_avatar (v : option AvatarSession) (f : Frame) : Frame :=
  {| globals := globals f; session := session f; avatar := v;
     tavus_error := tavus_error f; avatar_initialized := avatar_initialized f |}.
Definition set_tavus_error (v : option exn) (f : Frame) : Frame :=
  {| globals := globals f; session := session f; avatar := avatar f;
     tavus_error := v; avatar_initialized := avatar_initialized f |}.
Definition set_avatar_initialized (v : bool) (f : Frame) : Frame :=
  {| globals := globals f; session := session f; avatar := avatar f;
     tavus_error := tavus_error f; avatar_initialized := v |}.

Definition request_shutdown (g : Globals) : Globals :=
  {| _shutdown_requested := true; _restart_count := _restart_count g |}.
Definition count_restart (g : Globals) : Globals :=
  {| _shutdown_requested := _shutdown_requested g;
     _restart_count := _restart_count g + 1 |}.

(** Runs a computation on the globals inside a frame. *)
Definition on_globals {A} (c : M Globals A) : M Frame A :=
  fun f =>
    match c (globals f) with
    | {| final := g; trace := t; outcome := o |} =>
        {| final := set_globals g f; trace := t; outcome := o |}
    end.

(** [signal_handler] (lines 441-445) *)
Definition signal_handler (signum : Z) : M Globals unit :=
  log INFO ("Received signal " ++ show signum ++ ", initiating graceful shutdown...") ;;
  write request_shutdown.

(** [await asyncio.sleep(n)], during which the environment may deliver a
    signal: the handler then runs before the sleeper goes on. *)
Definition sleep (n : Z) (delivered : option Z) : M Globals unit :=
  emit (Sleep n) ;;
  match delivered with
  | Some signum => emit (Signal signum) ;; signal_handler signum
  | None => ret tt
  end.

(** [cleanup_resources] (lines 327-341). The avatar is not used: the source
    notes that [AvatarSession] has no close method. *)
Definition cleanup_resources (w : World) {S} (session : option AgentSession)
    (avatar : option AvatarSession) : M S unit :=
  log INFO "Cleaning up resources..." ;;
  match session with
  | Some s =>
      try_except
        (suppress (call (session_aclose s) (aclose_raises w)) ;;
         log INFO "Agent session cleaned up")
        (fun e => log WARNING ("Error cleaning up session: " ++ str e))
  | None => ret tt
  end.

(** The body of the [while] of [keep_session_alive] (lines 308-322); the
    result says whether it left by [break]. *)
Definition keep_alive_turn (t : Tick) : M Frame bool :=
  try_except
    (on_globals (sleep 30 (delivered t)) ;;
     match sample t with
     | inl e => raise e
     | inr (Some state) =>
         if ConnectionState_eqb state CONN_DISCONNECTED
         then log WARNING "Room disconnected, attempting to reconnect..." ;; ret true
         else log DEBUG "Session health check passed" ;; ret false
     | inr None => log DEBUG "Session health check passed" ;; ret false
     end)
    (fun e => log ERROR ("Error during session keep-alive: " ++ str e) ;; ret true).

Fixpoint keep_alive_loop (ts : list Tick) : M Frame unit :=
  stop <- read (fun f => _shutdown_requested (globals f)) ;;
  if stop then ret tt
  else
    match ts with
    | [] => pending
    | t :: ts' =>
        broke <- keep_alive_turn t ;;
        if broke then ret tt else keep_alive_loop ts'
    end.

(** [keep_session_alive] (lines 303-324) *)
Definition keep_session_alive (w : World) : M Frame unit :=
  log INFO "Starting session keep-alive monitoring..." ;;
  keep_alive_loop (ticks w) ;;
  log INFO "Session keep-alive monitoring stopped".

Definition is_402 (e : option exn) : bool :=
  match e with
  | Some (APIStatusError code _) => code =? 402
  | _ => false
  end.

(** Lines 204-235 of [entrypoint]: the avatar, under its three handlers. *)
Definition start_avatar (w : World) (s : AgentSession) (replica persona : string)
  : M Frame unit :=
  write (set_avatar_initialized false) ;;
  try_except
    (let a := {| replica_id := replica; persona_id := persona;
                 avatar_participant_name := "English-Teacher-Avatar" |} in
     call (new_AvatarSession a) (AvatarSession_raises w a) ;;
     write (set_avatar (Some a)) ;;
     log INFO "[AVATAR] Initializing Tavus avatar..." ;;
     call (avatar_start a s 30) (avatar_start_raises w) ;;
     log INFO "[SUCCESS] Tavus avatar ready" ;;
     write (set_avatar_initialized true))
    (fun e =>
       match e with
       | APIStatusError status_code _ =>
           write (set_tavus_error (Some e)) ;;
           if status_code =? 402 then
             log ERROR "Tavus API Error: Out of conversational credits" ;;
             log INFO "Please check your Tavus account and add more credits to continue using the avatar" ;;
             log INFO " Falling back to voice-only mode..."
           else
             log ERROR ("Tavus API Error: " ++ str e) ;;
             log INFO "Falling back to voice-only mode..."
       | TimeoutError =>
           log WARNING "Tavus avatar initialization timed out, falling back to voice-only mode"
       | Exception _ =>
           write (set_tavus_error (Some e)) ;;
           log ERROR ("Failed to initialize Tavus avatar: " ++ str e) ;;
           log INFO "Falling back to voice-only mode..."
       end).

(** Lines 237-260 of [entrypoint]: the session start and the keep-alive. *)
Definition start_session (w : World) (s : AgentSession) : M Frame unit :=
  try_except
    (call (session_start s) (session_start_raises w) ;;
     initialized <- read avatar_initialized ;;
     (if initialized then
        log INFO "[ACTIVE] English Teacher Agent with Tavus Avatar is now active!"
      else
        log INFO "[ACTIVE] English Teacher Agent (voice-only) is now active!" ;;
        err <- read tavus_error ;;
        if is_402 err then
          log INFO "NOTE: The agent is running in voice-only mode due to Tavus credit limitations." ;;
          log INFO "   To enable the visual avatar, please add more conversational credits to your Tavus account."
        else ret tt) ;;
     keep_session_alive w)
    (fun e =>
       log ERROR ("Failed to start agent session: " ++ str e) ;;
       raise e).

(** [entrypoint] (lines 161-277). The pictographs that open three of the
    log messages are left out of the strings. Signals are delivered during
    the sleeps of the keep-alive and of the retry loop; none is taken to
    arrive during the 5 seconds of line 272. *)
Definition entrypoint (w : World) : M Frame unit :=
  count <- read (fun f => _restart_count (globals f)) ;;
  log INFO ("Initializing English Teacher Agent with Tavus Avatar... (Restart #"
            ++ show count ++ ")") ;;
  write (set_session None) ;;
  write (set_avatar None) ;;
  write (set_tavus_error None) ;;
  try_except
    (created <- create_session_with_fallback w ;;
     write (set_session created) ;;
     match created with
     | None => raise (Exception "Failed to create session with either Ollama or Gemini")
     | Some s =>
         let tavus_api_key := getenv w "TAVUS_API_KEY" in
         let replica := getenv w "TAVUS_REPLICA_ID" in
         let persona := getenv w "TAVUS_PERSONA_ID" in
         if negb (truthy tavus_api_key) then
           log ERROR "Missing required Tavus API key (TAVUS_API_KEY)"
         else if negb (truthy replica) then
           log ERROR "Missing required Tavus Replica ID (TAVUS_REPLICA_ID)"
         else if negb (truthy persona) then
           log ERROR "Missing required Tavus Persona ID (TAVUS_PERSONA_ID)"
         else
           let replica := match replica with Some v => v | None => EmptyString end in
           let persona := match persona with Some v => v | None => EmptyString end in
           log INFO ("Configuring Tavus avatar with Replica ID: " ++ replica
                     ++ ", Persona ID: " ++ persona) ;;
           start_avatar w s replica persona ;;
           start_session w s
     end)
    (fun e =>
       log ERROR ("Critical error in agent entrypoint: " ++ str e) ;;
       s <- read session ;;
       a <- read avatar ;;
       cleanup_resources w s a ;;
       stop <- read (fun f => _shutdown_requested (globals f)) ;;
       count <- read (fun f => _restart_count (globals f)) ;;
       if negb stop && (count <? _max_restarts) then
         on_globals (write count_restart) ;;
         count <- read (fun f => _restart_count (globals f)) ;;
         log INFO ("Attempting restart #" ++ show count ++ " in 5 seconds...") ;;
         on_globals (sleep 5 None) ;;
         raise e
       else
         log ERROR "Maximum restart attempts reached or shutdown requested" ;;
         raise e).

(** ** The retry loop: [run_agent_with_auto_restart] (lines 344-387) *)

(** What the [try] of the loop can catch from [cli.run_app]:
    [KeyboardInterrupt], which is not an [Exception], or an [Exception]. *)
Inductive BaseException : Type :=
| KeyboardInterrupt
| Exn (e : exn).

(** [configure_ssl_for_development] (lines 280-300): environment variables
    and warning filters, none of which the loop reads, and one log line. *)
Definition configure_ssl_for_development : M Globals unit :=
  log INFO "SSL verification disabled for development".

Section Controller.
(** [cli.run_app(WorkerOptions(entrypoint_fnc=entrypoint, ...))] belongs
    to LiveKit. Its [i]-th call, from the globals of that moment, returns
    [None] when the agent stopped, [Some b] when it raised [b], and is
    [Pending] when it never returns. *)
Variable run_app : nat -> M Globals (option BaseException).
(** The signal, if any, that arrives during the sleep of iteration [i];
    lines 349-350 registered [signal_handler] for it. *)
Variable delay_signal : nat -> option Z.

(** Lines 366-370: the agent stopped normally. *)
Definition on_stopped (i : nat) : M Globals unit :=
  stop <- read _shutdown_requested ;;
  if negb stop then
    log INFO "Agent stopped normally, restarting in 10 seconds..." ;;
    sleep 10 (delay_signal i) ;;
    write count_restart
  else ret tt.

(** Lines 372-375; the result says whether the loop is left by [break]. *)
Definition on_keyboard_interrupt : M Globals bool :=
  log INFO "Received keyboard interrupt, shutting down..." ;;
  write request_shutdown ;;
  ret true.

(** Lines 376-385 *)
Definition on_crash (i : nat) (e : exn) : M Globals bool :=
  log ERROR ("Agent crashed with error: " ++ str e) ;;
  count <- read _restart_count ;;
  if count <? _max_restarts then
    write count_restart ;;
    count <- read _restart_count ;;
    let wait_time := Z.min 60 (5 * count) in
    log INFO ("Restarting in " ++ show wait_time ++ " seconds... (attempt "
              ++ show count ++ "/" ++ show _max_restarts ++ ")") ;;
    sleep wait_time (delay_signal i) ;;
    ret false
  else
    log ERROR "Maximum restart attempts reached, giving up" ;;
    ret true.

(** One turn of the [while]: lines 355-385. *)
Definition iteration (i : nat) : M Globals bool :=
  configure_ssl_for_development ;;
  log INFO "[START] Starting LiveKit agent..." ;;
  ended <- run_app i ;;
  match ended with
  | None => on_stopped i ;; ret false
  | Some KeyboardInterrupt => on_keyboard_interrupt
  | Some (Exn e) => on_crash i e
  end.

(** The condition of the [while] (line 354). *)
Definition may_start (g : Globals) : bool :=
  negb (_shutdown_requested g) && (_restart_count g <? _max_restarts).

(** The [while] itself; [fuel] bounds the number of turns, and running
    out of it is [Pending]. *)
Fixpoint restart_loop (fuel : nat) (i : nat) : M Globals unit :=
  go <- read may_start ;;
  if go then
    match fuel with
    | O => pending
    | S fuel' =>
        broke <- iteration i ;;
        if broke then ret tt else restart_loop fuel' (S i)
    end
  else ret tt.

Definition run_agent_with_auto_restart (fuel : nat) : M Globals unit :=
  log INFO "Starting English Teacher Agent with auto-restart capability..." ;;
  restart_loop fuel 0 ;;
  log INFO "Agent shutdown complete".

(** The globals at which each turn of the loop starts an attempt, in
    order: the store before each [iteration], read off the same
    recursion as [restart_loop]. *)
Fixpoint attempts (fuel : nat) (i : nat) (g : Globals) : list Globals :=
  if may_start g then
    match fuel with
    | O => []
    | S fuel' =>
        let r := iteration i g in
        g :: match outcome r with
             | Ret false => attempts fuel' (S i) (final r)
             | _ => []
             end
    end
  else [].
End Controller.

(** [cli.run_app] taken as running [entrypoint] once in this process and
    letting its exception through, which is what line 273 (re-raise to
    trigger the restart mechanism) relies on. The [i]-th attempt meets the
    world [ws i]. *)
Definition in_process (ws : nat -> World) (i : nat) : M Globals (option BaseException) :=
  fun g =>
    match entrypoint (ws i) (enter g) with
    | {| final := f; trace := t; outcome := o |} =>
        {| final := globals f;
           trace := t;
           outcome := match o with
                      | Ret _ => Ret None
                      | Exc e => Ret (Some (Exn e))
                      | Pending => Pending
                      end |}
    end.

(** ** Liveness endpoint *)

Record Response : Type :=
  { status : Z; headers : list (string * string); body : string }.

Definition dquote : ascii := "034"%char.

(** [s] between double quotes. *)
Definition quoted (s : string) : string :=
  String dquote (s ++ String dquote EmptyString).

(** The bytes of the [/health] body, with the blanks of the source. *)
Definition health_body : string :=
  "{" ++ quoted "status" ++ ": " ++ quoted "healthy" ++ ", "
      ++ quoted "agent" ++ ": " ++ quoted "English Teacher Agent" ++ "}".

(** [render_app.py], lines 15-30 *)
Module render_app.
Definition do_GET (path : string) : Response :=
  if String.eqb path "/health" then
    {| status := 200;
       headers := [("Content-type", "application/json")];
       body := health_body |}
  else
    {| status := 200;
       headers := [("Content-type", "text/plain")];
       body := "English Teacher Agent is running" |}.
End render_app.

(** [agent.py], the handler inside [run_agent_for_render], lines 397-408 *)
Module agent.
Definition do_GET (path : string) : Response :=
  if String.eqb path "/health" then
    {| status := 200;
       headers := [("Content-type", "application/json")];
       body := health_body |}
  else
    {| status := 200;
       headers := [("Content-type", "text/plain")];
       body := "English Teacher Agent is running on Render" |}.
End agent.

(** The JSON text the interface description gives for [/health], without
    blanks. *)
Definition health_json_compact : string :=
  "{" ++ quoted "status" ++ ":" ++ quoted "healthy" ++ ","
      ++ quoted "agent" ++ ":" ++ quoted "English Teacher Agent" ++ "}".

(** Drops the blanks that stand outside string literals, which JSON does
    not distinguish. [inside] tells whether a literal is open. *)
Fixpoint json_squeeze (inside : bool) (s : string) : string :=
  match s with
  | EmptyString => EmptyString
  | String c s' =>
      if Ascii.eqb c dquote then String c (json_squeeze (negb inside) s')
      else if negb inside && Ascii.eqb c " "%char then json_squeeze inside s'
      else String c (json_squeeze inside s')
  end.

(** ** What the keep-alive loop can add to a trace *)

(** [s.startswith(p)] *)
Fixpoint starts_with (p s : string) : bool :=
  match p with
  | EmptyString => true
  | String a p' =>
      match s with
      | EmptyString => false
      | String b s' => Ascii.eqb a b && starts_with p' s'
      end
  end.

(** Sleeps, signals and its own log lines; no call leaves the process. *)
Definition keep_alive_event (e : Event) : bool :=
  match e with
  | Sleep _ | Signal _ => true
  | Log DEBUG _ | Log WARNING _ => true
  | Log ERROR m => starts_with "Error during session keep-alive: " m
  | Log INFO m => starts_with "Received signal " m
  | Ext _ => false
  end.

(** What the selector can add to a trace: its own log lines and the
    construction of sessions. *)
Definition selector_event (e : Event) : bool :=
  match e with
  | Log INFO m =>
      starts_with "Ollama not available" m
      || starts_with "Attempting to connect to Ollama" m
      || starts_with "[SUCCESS] Ollama" m
      || starts_with "[SUCCESS] Google" m
      || starts_with "Falling back to Gemini" m
  | Log WARNING m => starts_with "Failed to create Ollama session: " m
  | Log ERROR m => starts_with "Failed to create Gemini session: " m
  | Ext (new_AgentSession _) => true
  | _ => false
  end.

(** ** Reading the environment of an attempt *)

(** The session the selector hands over: the first candidate, in priority
    order, whose construction succeeds. *)
Definition selected (w : World) : option AgentSession :=
  match built w LocalModel with
  | Some s => Some s
  | None => built w RemoteModel
  end.

(** The avatar that lines 186-213 configure, when the three values are
    there. *)
Definition configured_avatar (w : World) : option AvatarSession :=
  if truthy (getenv w "TAVUS_API_KEY")
     && truthy (getenv w "TAVUS_REPLICA_ID")
     && truthy (getenv w "TAVUS_PERSONA_ID")
  then
    match getenv w "TAVUS_REPLICA_ID", getenv w "TAVUS_PERSONA_ID" with
    | Some r, Some p =>
        Some {| replica_id := r; persona_id := p;
                avatar_participant_name := "English-Teacher-Avatar" |}
    | _, _ => None
    end
  else None.

(** The exception that ends the avatar's construction or its start, if
    any; [TimeoutError] is the expiry of the 30 seconds. *)
Definition avatar_failure (w : World) (a : AvatarSession) : option exn :=
  match AvatarSession_raises w a with
  | Some e => Some e
  | None => avatar_start_raises w
  end.

(** ** Scenarios *)

Definition tavus_env (k : string) : option string :=
  if String.eqb k "TAVUS_API_KEY" then Some "key"
  else if String.eqb k "TAVUS_REPLICA_ID" then Some "r1"
  else if String.eqb k "TAVUS_PERSONA_ID" then Some "p1"
  else None.

Definition teacher_avatar : AvatarSession :=
  {| replica_id := "r1"; persona_id := "p1";
     avatar_participant_name := "English-Teacher-Avatar" |}.

(** Ollama is installed but its server refuses; Gemini answers; the avatar
    starts; the room is found disconnected at the first sample. *)
Definition room_disconnects : World :=
  {| OLLAMA_AVAILABLE := true; ollama_plugin := Some tt; getenv := tavus_env;
     AgentSession_raises := fun l =>
       match l with
       | ollama_LLM _ _ => Some (Exception "connection refused")
       | _ => None
       end;
     AvatarSession_raises := fun _ => None;
     avatar_start_raises := None;
     session_start_raises := None;
     aclose_raises := None;
     ticks := [ {| delivered := None; sample := inr (Some CONN_DISCONNECTED) |} ] |}.

(** Both backends answer. *)
Definition both_answer : World :=
  {| OLLAMA_AVAILABLE := true; ollama_plugin := Some tt; getenv := tavus_env;
     AgentSession_raises := fun _ => None;
     AvatarSession_raises := fun _ => None;
     avatar_start_raises := None;
     session_start_raises := None;
     aclose_raises := None;
     ticks := [] |}.

(** Neither backend can be constructed. *)
Definition no_backend : World :=
  {| OLLAMA_AVAILABLE := true; ollama_plugin := Some tt; getenv := tavus_env;
     AgentSession_raises := fun _ => Some (Exception "unreachable");
     AvatarSession_raises := fun _ => None;
     avatar_start_raises := None;
     session_start_raises := None;
     aclose_raises := None;
     ticks := [] |}.

(** As [room_disconnects], without [TAVUS_PERSONA_ID]. *)
Definition no_persona : World :=
  {| OLLAMA_AVAILABLE := OLLAMA_AVAILABLE room_disconnects;
     ollama_plugin := ollama_plugin room_disconnects;
     getenv := fun k => if String.eqb k "TAVUS_PERSONA_ID" then None else tavus_env k;
     AgentSession_raises := AgentSession_raises room_disconnects;
     AvatarSession_raises := fun _ => None;
     avatar_start_raises := None;
     session_start_raises := None;
     aclose_raises := None;
     ticks := ticks room_disconnects |}.

(** As [room_disconnects], with the avatar's start ending as given. *)
Definition avatar_start_ends (e : exn) : World :=
  {| OLLAMA_AVAILABLE := OLLAMA_AVAILABLE room_disconnects;
     ollama_plugin := ollama_plugin room_disconnects;
     getenv := tavus_env;
     AgentSession_raises := AgentSession_raises room_disconnects;
     AvatarSession_raises := fun _ => None;
     avatar_start_raises := Some e;
     session_start_raises := None;
     aclose_raises := None;
     ticks := ticks room_disconnects |}.

(** ** Module initialisation: credential fallbacks and report (lines 65-106) *)

Definition Environ : Type := string -> option string.

(** [os.environ[k] = v] *)
Definition setenv (k v : string) (env : Environ) : Environ :=
  fun k' => if String.eqb k' k then Some v else env k'.

(** [if not os.getenv(k): os.environ[k] = v; logger.info(msg)] *)
Definition fallback (k v msg : string) : M Environ unit :=
  present <- read (fun env => truthy (env k)) ;;
  if negb present then write (setenv k v) ;; log INFO msg else ret tt.

(** What [os.getenv(k)] gives after [fallback k v _], from what it gave
    before: the value found when there is one and it is not empty, else
    [v]. *)
Definition or_fallback (found : option string) (v : string) : string :=
  match found with
  | Some x => if String.eqb x EmptyString then v else x
  | None => v
  end.

(** [logger.info(f"  {k}: {'OK' if os.getenv(k) else 'MISSING'}")] *)
Definition report (k : string) : M Environ unit :=
  present <- read (fun env => truthy (env k)) ;;
  log INFO ("  " ++ k ++ ": " ++ (if present then "OK" else "MISSING")).

Section Credentials.
(** The four credential literals of lines 70, 75, 91 and 95 are not
    repeated here. *)
Variables google_api_key tavus_api_key livekit_api_key livekit_api_secret : string.

(** Lines 69-96, on the environment that [load_dotenv] left. *)
Definition apply_fallbacks : M Environ unit :=
  fallback "GOOGLE_API_KEY" google_api_key "Applied fallback GOOGLE_API_KEY" ;;
  fallback "TAVUS_API_KEY" tavus_api_key "Applied Tavus API key" ;;
  fallback "TAVUS_REPLICA_ID" "rf4703150052" "Applied Tavus Replica ID" ;;
  fallback "TAVUS_PERSONA_ID" "p405fa2e1e31"
           "Applied Tavus Persona ID (LiveKit-compatible)" ;;
  fallback "LIVEKIT_URL" "wss://plasement-ai-8l2w6qjz.livekit.cloud"
           "Applied fallback LIVEKIT_URL" ;;
  fallback "LIVEKIT_API_KEY" livekit_api_key "Applied fallback LIVEKIT_API_KEY" ;;
  fallback "LIVEKIT_API_SECRET" livekit_api_secret "Applied fallback LIVEKIT_API_SECRET".

(** Lines 99-106 *)
Definition report_environment : M Environ unit :=
  log INFO "Environment variables status:" ;;
  report "LIVEKIT_URL" ;;
  report "LIVEKIT_API_KEY" ;;
  report "LIVEKIT_API_SECRET" ;;
  report "GOOGLE_API_KEY" ;;
  report "TAVUS_API_KEY" ;;
  report "TAVUS_REPLICA_ID" ;;
  report "TAVUS_PERSONA_ID".

Definition module_init : M Environ unit :=
  apply_fallbacks ;; report_environment.
End Credentials.

(** A message of the report that says a variable is missing. *)
Fixpoint ends_with_missing (s : string) : bool :=
  match s with
  | EmptyString => false
  | String _ s' => String.eqb s ": MISSING" || ends_with_missing s'
  end.

(** What a run of fallbacks for the variables [ks] does to [env]: it
    returns, leaves each of [ks] set, changes no variable that was set and
    none outside [ks], and logs nothing when all of [ks] were set. *)
Definition fills (c : M Environ unit) (ks : list string) (env : Environ) : Prop :=
  outcome (c env) = Ret tt
  /\ (forall k, In k ks -> truthy (final (c env) k) = true)
  /\ (forall k, truthy (env k) = true -> final (c env) k = env k)
  /\ (forall k, ~ In k ks -> final (c env) k = env k)
  /\ ((forall k, In k ks -> truthy (env k) = true) -> trace (c env) = []).

(** No line of the report says [MISSING]. *)
Definition all_reported_ok (tr : list Event) : Prop :=
  Forall (fun e => match e with
                   | Log _ m => ends_with_missing m = false
                   | _ => True
                   end) tr.

(** The variables that lines 69-96 give a fallback. *)
Definition credential_keys : list string :=
  ["GOOGLE_API_KEY"; "TAVUS_API_KEY"; "TAVUS_REPLICA_ID"; "TAVUS_PERSONA_ID";
   "LIVEKIT_URL"; "LIVEKIT_API_KEY"; "LIVEKIT_API_SECRET"].

(** ** The order of an attempt *)

(** The stage of an attempt to which an event belongs: construction of the
    backend (0), of the avatar (1), start of the avatar (2), start of the
    session (3), a keep-alive sleep of 30 seconds (4), release of the session
    (5), the 5 seconds before the re-raise (6). Log lines and signals belong
    to none. *)
Definition stage (e : Event) : option nat :=
  match e with
  | Ext (new_AgentSession _) => Some 0%nat
  | Ext (new_AvatarSession _) => Some 1%nat
  | Ext (avatar_start _ _ _) => Some 2%nat
  | Ext (session_start _) => Some 3%nat
  | Sleep n => if n =? 30 then Some 4%nat else Some 6%nat
  | Ext (session_aclose _) => Some 5%nat
  | Log _ _ | Signal _ => None
  end.

(** The stages of a trace, in order. *)
Fixpoint stages (tr : list Event) : list nat :=
  match tr with
  | [] => []
  | e :: tr' =>
      match stage e with
      | Some n => n :: stages tr'
      | None => stages tr'
      end
  end.

(** Non-decreasing. *)
Fixpoint ascending (l : list nat) : bool :=
  match l with
  | a :: (b :: _) as l' => (a <=? b)%nat && ascending l'
  | _ => true
  end.

(** [n] is at most the head of [l], if there is one. *)
Definition above (n : nat) (l : list nat) : bool :=
  match l with
  | [] => true
  | m :: _ => (n <=? m)%nat
  end.

(** A tick that ends the keep-alive loop by itself: the room is found
    disconnected, or sampling raised. *)
Definition ends_keep_alive (t : Tick) : bool :=
  match sample t with
  | inl _ => true
  | inr (Some CONN_DISCONNECTED) => true
  | inr _ => false
  end.

(** ** Background mode: the PID file (lines 448-564) *)

Module Background.

Inductive Platform : Type := win32 | posix.

(** The exceptions the [except] clauses tell apart, with [str(e)]:
    [OtherException] is any other [Exception], as [ValueError] from [int]
    or [PermissionError] from [os.kill]. *)
Inductive Error : Type :=
| FileNotFoundError (message : string)
| ProcessLookupError (message : string)
| OtherException (message : string).

Definition SIGTERM : Z := 15.

(** What the functions do to the outside, in order. *)
Inductive Action : Type :=
| Print (line : string)
| Popen (p : Platform)
| Kill (pid : Z) (sig : Z)
| System (command : string).

(** The host: the platform, the pid [subprocess.Popen] gives, what
    [os.kill] raises and what [os.system] returns. *)
Record Host : Type :=
  { platform : Platform;
    spawned : Z;
    kill_raises : Z -> Z -> option Error;
    system_status : string -> Z }.

(** A run: the content of [agent_pid.txt] afterwards ([None]: no such
    file), the actions, and the value returned. *)
Record Ran (A : Type) : Type :=
  { pid_file : option string; actions : list Action; value : A }.
Arguments pid_file {A} r.
Arguments actions {A} r.
Arguments value {A} r.

(** [run_detached_background] (lines 448-501). The two branches differ in
    the flags of [Popen] only. The pictographs that open the printed lines
    are left out, here and below. *)
Definition run_detached_background (h : Host) (file : option string) : Ran Z :=
  let pid := spawned h in
  {| pid_file := Some (show pid);
     actions :=
       [Popen (platform h);
        Print ("Agent started as background process (PID: " ++ show pid ++ ")");
        Print "Process ID saved to: agent_pid.txt";
        Print "Logs available in: english_teacher_agent.log";
        Print "To stop: python agent.py stop"];
     value := pid |}.

Section Reading.
(** [int(f.read().strip())] on the content of the file: the pid, or the
    exception raised. *)
Variable read_int : string -> Error + Z.

(** The first statement of both [try] blocks (lines 507-508, 537-538);
    [open] raises [FileNotFoundError] when there is no file. *)
Definition read_pid (file : option string) : Error + Z :=
  match file with
  | None => inl (FileNotFoundError "agent_pid.txt")
  | Some content => read_int content
  end.

(** [if os.path.exists("agent_pid.txt"): os.remove("agent_pid.txt")] *)
Definition remove_pid_file (file : option string) : option string := None.

(** The [except] clauses of [stop_background_agent] (lines 523-531), after
    the actions [done]. *)
Definition stop_failed (file : option string) (done : list Action) (e : Error)
  : Ran unit :=
  match e with
  | FileNotFoundError _ =>
      {| pid_file := file;
         actions := (done ++ [Print "No background agent PID file found. Agent may not be running."])%list;
         value := tt |}
  | ProcessLookupError _ =>
      {| pid_file := remove_pid_file file;
         actions := (done ++ [Print "Background agent process not found. It may have already stopped."])%list;
         value := tt |}
  | OtherException m =>
      {| pid_file := file;
         actions := (done ++ [Print ("Error stopping background agent: " ++ m)])%list;
         value := tt |}
  end.

(** Lines 517-521, after the signal went through. *)
Definition stop_succeeded (file : option string) (done : list Action) (pid : Z)
  : Ran unit :=
  {| pid_file := remove_pid_file file;
     actions := (done ++ [Print ("Background agent (PID: " ++ show pid
                                 ++ ") stopped successfully")])%list;
     value := tt |}.

(** [stop_background_agent] (lines 504-531) *)
Definition stop_background_agent (h : Host) (file : option string) : Ran unit :=
  match read_pid file with
  | inl e => stop_failed file [] e
  | inr pid =>
      match platform h with
      | win32 =>
          stop_succeeded file [System ("taskkill /F /PID " ++ show pid)] pid
      | posix =>
          match kill_raises h pid SIGTERM with
          | None => stop_succeeded file [Kill pid SIGTERM] pid
          | Some e => stop_failed file [Kill pid SIGTERM] e
          end
      end
  end.

(** The outer [except] clauses of [check_agent_status] (lines 559-564). *)
Definition status_failed (file : option string) (done : list Action) (e : Error)
  : Ran bool :=
  match e with
  | FileNotFoundError _ =>
      {| pid_file := file;
         actions := (done ++ [Print "No background agent PID file found. Agent is not running."])%list;
         value := false |}
  | ProcessLookupError m | OtherException m =>
      {| pid_file := file;
         actions := (done ++ [Print ("Error checking agent status: " ++ m)])%list;
         value := false |}
  end.

Definition status_running (file : option string) (done : list Action) (pid : Z)
  : Ran bool :=
  {| pid_file := file;
     actions := (done ++ [Print ("Background agent is running (PID: "
                                 ++ show pid ++ ")")])%list;
     value := true |}.

Definition status_not_running (file : option string) (done : list Action) (pid : Z)
  : Ran bool :=
  {| pid_file := file;
     actions := (done ++ [Print ("Background agent (PID: " ++ show pid
                                 ++ ") is not running")])%list;
     value := false |}.

(** The command of line 542. *)
Definition tasklist_command (pid : Z) : string :=
  "tasklist /FI " ++ quoted ("PID eq " ++ show pid)
  ++ " 2>nul | find " ++ quoted (show pid) ++ " >nul".

(** [check_agent_status] (lines 534-564) *)
Definition check_agent_status (h : Host) (file : option string) : Ran bool :=
  match read_pid file with
  | inl e => status_failed file [] e
  | inr pid =>
      match platform h with
      | win32 =>
          let command := tasklist_command pid in
          if system_status h command =? 0
          then status_running file [System command] pid
          else status_not_running file [System command] pid
      | posix =>
          match kill_raises h pid 0 with
          | None => status_running file [Kill pid 0] pid
          | Some (ProcessLookupError _) => status_not_running file [Kill pid 0] pid
          | Some e => status_failed file [Kill pid 0] e
          end
      end
  end.
End Reading.

(** The signals a run sent, with their targets. *)
Fixpoint kills (l : list Action) : list (Z * Z) :=
  match l with
  | [] => []
  | Kill pid sig :: l' => (pid, sig) :: kills l'
  | _ :: l' => kills l'
  end.

(** The commands a run gave to the shell. *)
Fixpoint commands (l : list Action) : list string :=
  match l with
  | [] => []
  | System c :: l' => c :: commands l'
  | _ :: l' => commands l'
  end.

(** [c.isspace()] for an ASCII character: the blank, the controls 9 to
    13 (tab, line feed, vertical tab, form feed, carriage return) and the
    four separators 28 to 31. *)
Definition isspace (c : ascii) : bool :=
  let n := nat_of_ascii c in
  (n =? 32)%nat || ((9 <=? n) && (n <=? 13))%nat || ((28 <=? n) && (n <=? 31))%nat.

Fixpoint lstrip (s : string) : string :=
  match s with
  | EmptyString => EmptyString
  | String c s' => if isspace c then lstrip s' else s
  end.

Fixpoint rstrip (s : string) : string :=
  match s with
  | EmptyString => EmptyString
  | String c s' =>
      match rstrip s' with
      | EmptyString => if isspace c then EmptyString else String c EmptyString
      | kept => String c kept
      end
  end.

(** [s.strip()] *)
Definition strip (s : string) : string := lstrip (rstrip s).

(** The digits of a numeral in which single underscores may separate
    digits, as [int] accepts them; [None] where an underscore opens or
    closes the numeral or follows another. *)
Fixpoint ungroup (after_digit : bool) (s : string) : option string :=
  match s with
  | EmptyString => if after_digit then Some EmptyString else None
  | String c s' =>
      if Ascii.eqb c "_" then
        if after_digit then ungroup false s' else None
      else option_map (String c) (ungroup true s')
  end.

(** The numeral after its sign. *)
Definition unsigned (s : string) : option Z :=
  match ungroup false s with
  | Some digits => option_map Z.of_uint (NilEmpty.uint_of_string digits)
  | None => None
  end.

(** [int(text.strip())] for ASCII text (lines 508 and 538): blanks around
    the numeral are dropped, a sign may open it, single underscores may
    separate its digits, leading zeros are accepted; anything else is a
    [ValueError], whose message quotes the stripped text (without the
    escapes of [repr]). Digits and blanks outside ASCII, which [int] also
    accepts, are not told apart from other characters, and numerals are
    not limited in length. *)
Definition int_of_text (text : string) : Error + Z :=
  let body := strip text in
  let parsed :=
    match body with
    | EmptyString => None
    | String c rest =>
        if Ascii.eqb c "-" then option_map Z.opp (unsigned rest)
        else if Ascii.eqb c "+" then unsigned rest
        else unsigned body
    end in
  match parsed with
  | Some n => inr n
  | None =>
      inl (OtherException
             ("invalid literal for int() with base 10: '" ++ body ++ "'"))
  end.

(** No blank, sign or underscore: as the digits that [str] writes. *)
Fixpoint plain (s : string) : bool :=
  match s with
  | EmptyString => true
  | String c s' =>
      negb (isspace c) && negb (Ascii.eqb c "_") && negb (Ascii.eqb c "-")
      && negb (Ascii.eqb c "+") && plain s'
  end.

(** A posix host on which the spawned process 4242 is alive and ours. *)
Definition quiet_host : Host :=
  {| platform := posix; spawned := 4242;
     kill_raises := fun _ _ => None;
     system_status := fun _ => 0 |}.

End Background.

(** As [room_disconnects], in a process started with an empty environment:
    [os.getenv] reads what the fallbacks of lines 69-96 left. *)
Definition fresh_process : World :=
  {| OLLAMA_AVAILABLE := OLLAMA_AVAILABLE room_disconnects;
     ollama_plugin := ollama_plugin room_disconnects;
     getenv := final (apply_fallbacks "g" "t" "k" "s" (fun _ => None));
     AgentSession_raises := AgentSession_raises room_disconnects;
     AvatarSession_raises := fun _ => None;
     avatar_start_raises := None;
     session_start_raises := None;
     aclose_raises := None;
     ticks := ticks room_disconnects |}.

(** As [room_disconnects], in a process started with the Tavus key and
    replica id in its environment and no persona id: [os.getenv] reads what
    the fallbacks of lines 69-96 left of the environment of [no_persona]. *)
Definition persona_unset : World :=
  {| OLLAMA_AVAILABLE := OLLAMA_AVAILABLE room_disconnects;
     ollama_plugin := ollama_plugin room_disconnects;
     getenv := final (apply_fallbacks "g" "t" "k" "s" (getenv no_persona));
     AgentSession_raises := AgentSession_raises room_disconnects;
     AvatarSession_raises := fun _ => None;
     avatar_start_raises := None;
     session_start_raises := None;
     aclose_raises := None;
     ticks := ticks room_disconnects |}.

(** What the keep-alive loop does between two samples: it sleeps 30
    seconds, and calls nothing. *)
Definition keep_alive_paced (e : Event) : bool :=
  match e with
  | Sleep n => n =? 30
  | Ext _ => false
  | Log _ _ | Signal _ => true
  end.

(** As [room_disconnects], with [session.start] ending as given. *)
Definition session_start_ends (e : exn) : World :=
  {| OLLAMA_AVAILABLE := OLLAMA_AVAILABLE room_disconnects;
     ollama_plugin := ollama_plugin room_disconnects;
     getenv := tavus_env;
     AgentSession_raises := AgentSession_raises room_disconnects;
     AvatarSession_raises := fun _ => None;
     avatar_start_raises := None;
     session_start_raises := Some e;
     aclose_raises := Some (Exception "already closed");
     ticks := ticks room_disconnects |}.

(** A [cli.run_app] that is interrupted from the keyboard at once. *)
Definition interrupted_app (i : nat) : M Globals (option BaseException) :=
  ret (Some KeyboardInterrupt).

(** * Properties *)

(** ** Symbolic execution of the embedded code *)

(** Unfolds the embedded functions and the operations on computations;
    [keep_alive_loop] and [create_session_with_fallback] are summarised by
    lemmas instead. *)
Ltac reduce_py :=
  cbv beta iota zeta delta
    [entrypoint start_avatar start_session cleanup_resources keep_session_alive
     keep_alive_turn sleep signal_handler getenv_default gemini_llm
     bind try_except suppress ret raise log emit call read write on_globals pending
     final trace outcome delivered sample
     globals session avatar tavus_error avatar_initialized
     set_globals set_session set_avatar set_tavus_error set_avatar_initialized
     _shutdown_requested _restart_count request_shutdown count_restart enter
     negb andb orb truthy is_402 ConnectionState_eqb
     may_start configured_avatar avatar_failure
     iteration on_stopped on_crash on_keyboard_interrupt
     configure_ssl_for_development in_process];
  cbn [app].

Ltac reduce_py_in H :=
  cbv beta iota zeta delta
    [entrypoint start_avatar start_session cleanup_resources keep_session_alive
     keep_alive_turn sleep signal_handler getenv_default gemini_llm
     bind try_except suppress ret raise log emit call read write on_globals pending
     final trace outcome delivered sample
     globals session avatar tavus_error avatar_initialized
     set_globals set_session set_avatar set_tavus_error set_avatar_initialized
     _shutdown_requested _restart_count request_shutdown count_restart enter
     negb andb orb truthy is_402 ConnectionState_eqb
     may_start configured_avatar avatar_failure
     iteration on_stopped on_crash on_keyboard_interrupt
     configure_ssl_for_development in_process] in H;
  cbn [app] in H.

(** Rewrites with the case equations in the hypotheses that mention their
    left-hand sides, and closes the case when one becomes absurd. *)
Ltac prune :=
  repeat match goal with
         | E : ?x = _, H : ?T |- _ =>
             lazymatch T with context [x] => idtac end;
             progress (rewrite E in H); reduce_py_in H
         end;
  repeat match goal with
         | H : Some _ = Some _ |- _ => injection H as H; try subst
         end;
  try discriminate; try congruence.

(** The scrutinee on which a stuck [match] waits. *)
Ltac dig x :=
  lazymatch x with
  | match ?y with _ => _ end => dig y
  | (match ?y with _ => _ end) _ => dig y
  | _ => destruct x eqn:?
  end.

Ltac symex :=
  repeat (reduce_py;
          lazymatch goal with
          | |- match ?x with _ => _ end => dig x; prune
          end).

(** ** Counting events *)

Lemma calls_app (p : Call -> bool) (t1 t2 : list Event) :
  calls p (t1 ++ t2) = (calls p t1 + calls p t2)%nat.
Proof. unfold calls. rewrite filter_app, length_app. reflexivity. Qed.

Lemma sleeps_app (t1 t2 : list Event) :
  sleeps (t1 ++ t2) = (sleeps t1 ++ sleeps t2)%list.
Proof.
  induction t1 as [|e t1 IH]; [reflexivity|].
  destruct e; cbn; rewrite IH; reflexivity.
Qed.

Lemma keep_alive_events_no_call (p : Call -> bool) (tr : list Event) :
  Forall (fun e => keep_alive_event e = true) tr -> calls p tr = 0%nat.
Proof.
  induction 1 as [|e tr He _ IH]; [reflexivity|].
  unfold calls in *. cbn.
  destruct e; cbn in *; try exact IH. discriminate He.
Qed.

Lemma selector_events_no_call (p : Call -> bool) (tr : list Event) :
  (forall l, p (new_AgentSession l) = false) ->
  Forall (fun e => selector_event e = true) tr -> calls p tr = 0%nat.
Proof.
  intros Hp. induction 1 as [|e tr He _ IH]; [reflexivity|].
  unfold calls in *. cbn.
  destruct e as [lvl m| |c|]; cbn in *; try exact IH.
  destruct c; try discriminate He. rewrite Hp. exact IH.
Qed.

Lemma selector_events_no_sleep (tr : list Event) :
  Forall (fun e => selector_event e = true) tr -> sleeps tr = [].
Proof.
  induction 1 as [|e tr He _ IH]; [reflexivity|].
  destruct e; cbn in *; try exact IH; discriminate He.
Qed.

Ltac all_events :=
  repeat (apply Forall_cons; [reflexivity|]);
  first [apply Forall_nil | assumption].

(** ** Backend selector *)

Lemma create_ollama_session_runs {S} (w : World) (st : S) :
  match create_ollama_session w st with
  | {| final := fs; trace := tr; outcome := o |} =>
      o = Ret (built w LocalModel) /\ fs = st
      /\ Forall (fun e => selector_event e = true) tr
  end.
Proof.
  unfold built, construct, create_ollama_session.
  destruct (OLLAMA_AVAILABLE w); [destruct (ollama_plugin w) as [[]|]|];
    symex; repeat split; all_events.
Qed.

Lemma create_gemini_session_runs {S} (w : World) (st : S) :
  match create_gemini_session w st with
  | {| final := fs; trace := tr; outcome := o |} =>
      o = Ret (built w RemoteModel) /\ fs = st
      /\ Forall (fun e => selector_event e = true) tr
  end.
Proof.
  unfold built, construct, create_gemini_session.
  symex; repeat split; all_events.
Qed.

(** The selector returns what [selected] says, never raises, and leaves the
    store as it was. *)
Lemma create_session_with_fallback_runs {S} (w : World) (st : S) :
  match create_session_with_fallback w st with
  | {| final := fs; trace := tr; outcome := o |} =>
      o = Ret (selected w) /\ fs = st
      /\ Forall (fun e => selector_event e = true) tr
  end.
Proof.
  unfold create_session_with_fallback, selected.
  pose proof (create_ollama_session_runs w st) as Ho.
  cbv beta delta [bind].
  destruct (create_ollama_session w st) as [s1 t1 o1].
  destruct Ho as (-> & -> & Ht1).
  destruct (built w LocalModel) as [s|].
  - reduce_py. rewrite app_nil_r. repeat split. exact Ht1.
  - pose proof (create_gemini_session_runs w st) as Hg.
    reduce_py.
    destruct (create_gemini_session w st) as [s2 t2 o2].
    destruct Hg as (-> & -> & Ht2).
    repeat split.
    apply Forall_app. split; [exact Ht1|].
    apply Forall_cons; [reflexivity | exact Ht2].
Qed.

(** ** The keep-alive loop *)

(** The keep-alive loop never raises, makes no call, and writes nothing but
    the shutdown flag, which it can only set. *)
Lemma keep_alive_loop_spec (ts : list Tick) (f : Frame) :
  match keep_alive_loop ts f with
  | {| final := fs; trace := tr; outcome := o |} =>
      (forall e, o <> Exc e)
      /\ _restart_count (globals fs) = _restart_count (globals f)
      /\ (_shutdown_requested (globals f) = true ->
          _shutdown_requested (globals fs) = true)
      /\ session fs = session f /\ avatar fs = avatar f
      /\ tavus_error fs = tavus_error f
      /\ avatar_initialized fs = avatar_initialized f
      /\ Forall (fun e => keep_alive_event e = true) tr
  end.
Proof.
  revert f. induction ts as [|t ts IH]; intros [[stop count] s a te ai].
  - cbn [keep_alive_loop]. symex;
      (repeat split; first [all_events | intros; congruence]).
  - cbn [keep_alive_loop]. destruct stop.
    { reduce_py. repeat split; first [all_events | intros; congruence]. }
    destruct t as [[signum|] [e|[[]|]]]; reduce_py.
    all: try (repeat split; first [all_events | intros; congruence]).
    all: match goal with
         | |- context [keep_alive_loop ?l ?st] =>
             specialize (IH st); destruct (keep_alive_loop l st) as [fs tr o]
         end;
         reduce_py; reduce_py_in IH;
         destruct IH as (H1 & H2 & H3 & H4 & H5 & H6 & H7 & H8);
         repeat split;
         first [ assumption | apply H3; reflexivity | all_events
               | intros; congruence | eapply H1; eassumption ].
Qed.

Ltac dig x ::=
  lazymatch x with
  | match ?y with _ => _ end => dig y
  | (match ?y with _ => _ end) _ => dig y
  | keep_alive_loop ?ts ?st =>
      let H := fresh "Hloop" in
      pose proof (keep_alive_loop_spec ts st) as H;
      destruct (keep_alive_loop ts st) as [? ? ?];
      reduce_py_in H;
      destruct H as (? & ? & ? & ? & ? & ? & ? & ?)
  | create_session_with_fallback ?w ?st =>
      let H := fresh "Hselector" in
      pose proof (create_session_with_fallback_runs w st) as H;
      destruct (create_session_with_fallback w st) as [? ? ?];
      destruct H as (-> & -> & ?)
  | _ => destruct x eqn:?
  end.

Ltac quiet_traces :=
  repeat match goal with
         | H : Forall (fun e => keep_alive_event e = true) ?t
           |- context [filter (is_call ?p) ?t] =>
             let Hc := fresh in
             pose proof (keep_alive_events_no_call p t H) as Hc;
             unfold calls in Hc; rewrite Hc; clear Hc
         | H : Forall (fun e => selector_event e = true) ?t
           |- context [filter (is_call ?p) ?t] =>
             let Hc := fresh in
             pose proof (selector_events_no_call p t (fun _ => eq_refl) H) as Hc;
             unfold calls in Hc; rewrite Hc; clear Hc
         | H : Forall (fun e => selector_event e = true) ?t
           |- context [sleeps ?t] =>
             rewrite (selector_events_no_sleep t H)
         end.

Ltac count_events :=
  unfold calls;
  repeat (progress
            (cbn [filter is_call is_aclose is_session_start is_new_AvatarSession
                  is_avatar_start is_new_AgentSession sleeps app Datatypes.length Nat.add];
             rewrite ?filter_app, ?sleeps_app, ?length_app;
             quiet_traces)).

(** ** The attempt *)

(** How [entrypoint] leaves: when it raises, it has closed the session it
    had (once), and counted a restart and slept 5 seconds if the guard of
    line 269 held; when it returns or is still running, it has closed
    nothing and counted nothing. *)
Lemma entrypoint_summary (w : World) (f : Frame) :
  match entrypoint w f with
  | {| final := fs; trace := tr; outcome := o |} =>
      match o with
      | Exc _ =>
          globals fs
          = (if negb (_shutdown_requested (globals f))
                && (_restart_count (globals f) <? _max_restarts)
             then count_restart (globals f) else globals f)
          /\ sleeps tr
             = (if negb (_shutdown_requested (globals f))
                   && (_restart_count (globals f) <? _max_restarts)
                then [5] else [])
          /\ calls is_aclose tr
             = match session fs with Some _ => 1%nat | None => 0%nat end
      | _ =>
          calls is_aclose tr = 0%nat
          /\ _restart_count (globals fs) = _restart_count (globals f)
      end
  end.
Proof.
  destruct f as [[stop count] s a te ai].
  symex; repeat split; count_events; try reflexivity; try assumption.
Qed.

Ltac find_in :=
  first [ apply in_eq
        | apply in_cons; find_in
        | apply in_or_app; first [left; find_in | right; find_in] ].

Ltac in_trace := unfold logged; solve [find_in].

Ltac absent_in Hin :=
  repeat match type of Hin with
         | In _ (_ ++ _) => apply in_app_or in Hin; destruct Hin as [Hin|Hin]
         | In _ (_ :: _) =>
             destruct Hin as [Hin|Hin];
             [cbn [String.append] in Hin; discriminate Hin|]
         | In _ [] => destruct Hin
         | In _ ?t =>
             match goal with
             | H : Forall _ t |- _ =>
                 let K := fresh in
                 pose proof (proj1 (Forall_forall _ _) H _ Hin) as K;
                 cbn in K; discriminate K
             end
         end.

Ltac absent :=
  unfold logged; let Hin := fresh "Hin" in intro Hin; absent_in Hin.

(** ** The selector and its environment *)

(** What a candidate's construction gives, read off the environment. *)
Lemma built_succeeds (w : World) (c : BackendCandidate) :
  built w c
  = if succeeds w c then Some {| llm := candidate_llm w c |} else None.
Proof.
  unfold built, succeeds, construct, candidate_llm.
  destruct c; unfold create_ollama_session, create_gemini_session.
  - destruct (OLLAMA_AVAILABLE w); [destruct (ollama_plugin w) as [[]|]|];
      reduce_py; try reflexivity.
    destruct (AgentSession_raises w _); reflexivity.
  - reduce_py. destruct (AgentSession_raises w _); reflexivity.
Qed.

(** C1. Whenever the environment lets some candidate of the priority
    list construct, the selector returns the session of the first one that
    does (Ollama before Gemini), built by a call of [AgentSession] with
    that candidate's model, whatever the number of candidates that failed
    before it; no later candidate is constructed, and the store is left as
    it was. *)
Theorem selector_returns_first_success {S} (w : World) (st : S)
    (pre post : list BackendCandidate) (c : BackendCandidate) :
  candidates = (pre ++ c :: post)%list ->
  Forall (fun c' => succeeds w c' = false) pre ->
  succeeds w c = true ->
  let r := create_session_with_fallback w st in
  outcome r = Ret (Some {| llm := candidate_llm w c |})
  /\ final r = st
  /\ In (Ext (new_AgentSession (candidate_llm w c))) (trace r)
  /\ (forall c', In c' post ->
      ~ In (Ext (new_AgentSession (candidate_llm w c'))) (trace r))
  /\ (calls is_new_AgentSession (trace r) <= Datatypes.length pre + 1)%nat.
Proof.
  intros Hsplit Hpre Hc r. subst r.
  unfold candidates in Hsplit.
  assert (Hcases : (pre = [] /\ c = LocalModel /\ post = [RemoteModel])
                   \/ (pre = [LocalModel] /\ c = RemoteModel /\ post = [])).
  { destruct pre as [|c1 [|c2 pre]]; cbn in Hsplit.
    - injection Hsplit as <- <-. auto.
    - injection Hsplit as <- <- <-. auto.
    - injection Hsplit as _ _ Hnil. destruct pre; discriminate Hnil. }
  destruct Hcases as [(-> & -> & ->)|(-> & -> & ->)].
  - unfold succeeds, candidate_llm in *.
    unfold create_session_with_fallback, create_ollama_session.
    destruct (OLLAMA_AVAILABLE w); [|discriminate Hc].
    destruct (ollama_plugin w) as [[]|]; [|discriminate Hc].
    cbn [andb] in Hc. reduce_py.
    destruct (AgentSession_raises w _); [discriminate Hc|].
    reduce_py. repeat split.
    + in_trace.
    + intros c' [<-|[]]. unfold candidate_llm, gemini_llm. intros Hin. absent_in Hin.
    + cbn. lia.
  - inversion Hpre as [|? ? Hlocal _]; subst.
    unfold succeeds, candidate_llm in *.
    unfold create_session_with_fallback, create_ollama_session, create_gemini_session.
    cbn [andb] in Hc.
    destruct (AgentSession_raises w gemini_llm) eqn:Hg; [discriminate Hc|].
    destruct (OLLAMA_AVAILABLE w); [destruct (ollama_plugin w) as [[]|]|];
      cbn [andb] in Hlocal; reduce_py.
    1: destruct (AgentSession_raises w (ollama_LLM _ _)); [|discriminate Hlocal].
    all: reduce_py; reduce_py_in Hg; try rewrite Hg; reduce_py.
    all: repeat split; first [in_trace | intros c' [] | cbn; lia].
Qed.

Lemma selector_returns_first_success_witness :
  outcome (create_session_with_fallback both_answer tt)
  = Ret (Some {| llm := ollama_LLM "llama3" "http://localhost:11434" |})
  /\ outcome (create_session_with_fallback room_disconnects tt)
     = Ret (Some {| llm := gemini_llm |}).
Proof.
  split.
  - refine (proj1 (selector_returns_first_success both_answer tt [] [RemoteModel]
                     LocalModel _ _ _)).
    + reflexivity.
    + constructor.
    + reflexivity.
  - refine (proj1 (selector_returns_first_success room_disconnects tt [LocalModel] []
                     RemoteModel _ _ _)).
    + reflexivity.
    + repeat constructor.
    + reflexivity.
Defined.

(** C2. When every candidate fails, the selector returns no session (it
    never raises, in any world), and [entrypoint] raises the exception of
    line 183 to its caller, with no session bound, started or closed. *)
Theorem no_backend_available (w : World) (f : Frame) :
  Forall (fun c => built w c = None) candidates ->
  let r := entrypoint w f in
  outcome (create_session_with_fallback w f) = Ret None
  /\ (forall (w' : World) (f' : Frame),
        exists s, outcome (create_session_with_fallback w' f') = Ret s)
  /\ outcome r = Exc (Exception "Failed to create session with either Ollama or Gemini")
  /\ session (final r) = None
  /\ calls is_session_start (trace r) = 0%nat
  /\ calls is_aclose (trace r) = 0%nat.
Proof.
  intros Hall r.
  assert (Hsel : selected w = None).
  { inversion Hall as [|? ? Hlocal Hrest]; subst.
    inversion Hrest as [|? ? Hremote _]; subst.
    unfold selected. rewrite Hlocal. exact Hremote. }
  split.
  { pose proof (create_session_with_fallback_runs w f) as H.
    destruct (create_session_with_fallback w f); destruct H as (-> & _).
    cbn. rewrite Hsel. reflexivity. }
  split.
  { intros w' f'. exists (selected w').
    pose proof (create_session_with_fallback_runs w' f') as H.
    destruct (create_session_with_fallback w' f'); destruct H as (-> & _).
    reflexivity. }
  assert (H : match r with
              | {| final := fs; trace := tr; outcome := o |} =>
                  o = Exc (Exception "Failed to create session with either Ollama or Gemini")
                  /\ session fs = None /\ calls is_session_start tr = 0%nat
                  /\ calls is_aclose tr = 0%nat
              end).
  { subst r. destruct f as [[stop count] s a te ai].
    symex; repeat split; count_events; reflexivity. }
  destruct r; exact H.
Qed.

Lemma no_backend_available_witness :
  outcome (entrypoint no_backend (enter initial_globals))
  = Exc (Exception "Failed to create session with either Ollama or Gemini").
Proof.
  refine (proj1 (proj2 (proj2 (no_backend_available no_backend (enter initial_globals) _)))).
  repeat constructor.
Defined.

(** C5, at the scenario of a room found disconnected: [entrypoint] returns
    normally with its session started and never closed. *)
Theorem normal_exit_leaves_session_open :
  let r := entrypoint room_disconnects (enter initial_globals) in
  outcome r = Ret tt
  /\ session (final r) = Some {| llm := gemini_llm |}
  /\ calls is_session_start (trace r) = 1%nat
  /\ calls is_aclose (trace r) = 0%nat.
Proof. vm_compute. repeat split. Qed.

(** When [entrypoint] raises it has closed the session it had, once, and
    there is nothing to close when none was created; when it returns
    normally it has closed nothing. *)
Lemma session_closed_only_on_raise (w : World) (f : Frame) :
  let r := entrypoint w f in
  match outcome r with
  | Exc _ =>
      calls is_aclose (trace r)
      = match session (final r) with Some _ => 1%nat | None => 0%nat end
  | _ => calls is_aclose (trace r) = 0%nat
  end.
Proof.
  intros r. subst r.
  pose proof (entrypoint_summary w f) as H.
  destruct (entrypoint w f) as [fs tr [u|e|]]; cbn [outcome trace final];
    intuition.
Qed.

(** An exception of [session.aclose] does not leave [cleanup_resources]. *)
Lemma cleanup_resources_never_raises {S} (w : World) (s : option AgentSession)
    (a : option AvatarSession) (st : S) :
  outcome (cleanup_resources w s a st) = Ret tt
  /\ final (cleanup_resources w s a st) = st
  /\ calls is_aclose (trace (cleanup_resources w s a st))
     = match s with Some _ => 1%nat | None => 0%nat end.
Proof.
  destruct s as [s|]; [destruct (aclose_raises w) eqn:E|];
    reduce_py; try rewrite E; repeat split.
Qed.

(** ** The avatar's configuration *)

Lemma bind_returns {S A B} (c : M S A) (k : A -> M S B) (s : S) (a : A) :
  outcome (c s) = Ret a ->
  final (bind c k s) = final (k a (final (c s)))
  /\ outcome (bind c k s) = outcome (k a (final (c s)))
  /\ trace (bind c k s) = (trace (c s) ++ trace (k a (final (c s))))%list.
Proof.
  intros H. unfold bind. destruct (c s) as [s1 t1 o1]. cbn in H. subst o1.
  cbn. destruct (k a s1). repeat split.
Qed.

Lemma truthy_nonempty (v : string) : v <> EmptyString -> truthy (Some v) = true.
Proof.
  intros H. cbn. destruct (String.eqb_spec v EmptyString); [contradiction | reflexivity].
Qed.

Lemma fallback_value (k v msg : string) (env : Environ) (k' : string) :
  final (fallback k v msg env) k'
  = if String.eqb k' k then Some (or_fallback (env k) v) else env k'.
Proof.
  unfold fallback, or_fallback, setenv.
  cbv [bind read write log emit ret final trace outcome truthy].
  destruct (env k) as [x|] eqn:E; [destruct (String.eqb x EmptyString)|]; cbn.
  all: destruct (String.eqb_spec k' k) as [->|Hne]; congruence.
Qed.

Lemma fallback_then (k v msg : string) (c : M Environ unit) (env : Environ) :
  final ((fallback k v msg ;; c) env) = final (c (final (fallback k v msg env))).
Proof.
  apply (bind_returns (fallback k v msg) (fun _ => c) env tt).
  unfold fallback. cbv [bind read write log emit ret final trace outcome].
  destruct (negb (truthy (env k))); reflexivity.
Qed.

Lemma or_fallback_truthy (found : option string) (v : string) :
  v <> EmptyString -> truthy (Some (or_fallback found v)) = true.
Proof.
  intros Hv. unfold or_fallback.
  destruct found as [x|]; [destruct (String.eqb x EmptyString) eqn:E|].
  - apply truthy_nonempty. exact Hv.
  - cbn. rewrite E. reflexivity.
  - apply truthy_nonempty. exact Hv.
Qed.

(** The three Tavus values as lines 74-84 leave them. *)
Lemma apply_fallbacks_tavus (g t lk ls : string) (env : Environ) :
  let after := final (apply_fallbacks g t lk ls env) in
  after "TAVUS_API_KEY" = Some (or_fallback (env "TAVUS_API_KEY") t)
  /\ after "TAVUS_REPLICA_ID"
     = Some (or_fallback (env "TAVUS_REPLICA_ID") "rf4703150052")
  /\ after "TAVUS_PERSONA_ID"
     = Some (or_fallback (env "TAVUS_PERSONA_ID") "p405fa2e1e31").
Proof.
  cbv zeta. unfold apply_fallbacks.
  rewrite !fallback_then.
  repeat split; repeat (rewrite fallback_value; cbn [String.eqb Ascii.eqb Bool.eqb]);
    reflexivity.
Qed.

(** With the three Tavus values set, [entrypoint] passes the guards of
    lines 190-200 without a word and constructs the configured avatar. *)
Lemma entrypoint_passes_guards (w : World) (f : Frame) (s : AgentSession)
    (a : AvatarSession) :
  selected w = Some s ->
  configured_avatar w = Some a ->
  match entrypoint w f with
  | {| final := _; trace := tr; outcome := _ |} =>
      In (Ext (new_AvatarSession a)) tr
      /\ calls is_new_AvatarSession tr = 1%nat
      /\ calls is_session_start tr = 1%nat
      /\ ~ logged ERROR "Missing required Tavus API key (TAVUS_API_KEY)" tr
      /\ ~ logged ERROR "Missing required Tavus Replica ID (TAVUS_REPLICA_ID)" tr
      /\ ~ logged ERROR "Missing required Tavus Persona ID (TAVUS_PERSONA_ID)" tr
  end.
Proof.
  intros Hsel Hcfg.
  destruct f as [[stop count] s0 a0 te ai].
  reduce_py_in Hcfg.
  symex.
  all: split; [in_trace|].
  all: split; [count_events; reflexivity|].
  all: split; [count_events; reflexivity|].
  all: split; [absent|]; split; absent.
Qed.

(** C6, amended. The guards of lines 190-200: when one of the three
    values is missing or empty as [entrypoint] reads it, [entrypoint] logs
    the first missing one as an error and returns normally at that guard; no
    avatar is constructed or started, the conversation session is not
    started either (so there is no voice-only mode), it is not closed, and
    the globals are untouched. In a process whose environment is the one
    the fallbacks of lines 74-84 left, no value is missing: the guards say
    nothing and the avatar is constructed, once, with the replica and
    persona ids of the environment or, where these were absent, the
    fallback ids. *)
Theorem missing_avatar_config_ends_attempt (g t lk ls : string) (env : Environ)
    (w : World) (f : Frame) (s : AgentSession) :
  t <> EmptyString ->
  selected w = Some s ->
  let r := entrypoint w f in
  let key := truthy (getenv w "TAVUS_API_KEY") in
  let replica := truthy (getenv w "TAVUS_REPLICA_ID") in
  let persona := truthy (getenv w "TAVUS_PERSONA_ID") in
  (key && replica && persona = false ->
   outcome r = Ret tt
   /\ logged ERROR
        (if negb key then "Missing required Tavus API key (TAVUS_API_KEY)"
         else if negb replica
              then "Missing required Tavus Replica ID (TAVUS_REPLICA_ID)"
              else "Missing required Tavus Persona ID (TAVUS_PERSONA_ID)")
        (trace r)
   /\ calls is_new_AvatarSession (trace r) = 0%nat
   /\ calls is_avatar_start (trace r) = 0%nat
   /\ calls is_session_start (trace r) = 0%nat
   /\ calls is_aclose (trace r) = 0%nat
   /\ ~ logged INFO "[ACTIVE] English Teacher Agent (voice-only) is now active!" (trace r)
   /\ session (final r) = Some s
   /\ globals (final r) = globals f)
  /\ ((forall k, getenv w k = final (apply_fallbacks g t lk ls env) k) ->
      let a := {| replica_id := or_fallback (env "TAVUS_REPLICA_ID") "rf4703150052";
                  persona_id := or_fallback (env "TAVUS_PERSONA_ID") "p405fa2e1e31";
                  avatar_participant_name := "English-Teacher-Avatar" |} in
      key && replica && persona = true
      /\ In (Ext (new_AvatarSession a)) (trace r)
      /\ calls is_new_AvatarSession (trace r) = 1%nat
      /\ calls is_session_start (trace r) = 1%nat
      /\ ~ logged ERROR "Missing required Tavus API key (TAVUS_API_KEY)" (trace r)
      /\ ~ logged ERROR "Missing required Tavus Replica ID (TAVUS_REPLICA_ID)" (trace r)
      /\ ~ logged ERROR "Missing required Tavus Persona ID (TAVUS_PERSONA_ID)" (trace r)).
Proof.
  intros Ht Hsel r key replica persona. split.
  - intros Hmissing.
    assert (H : match r with
                | {| final := fs; trace := tr; outcome := o |} =>
                    o = Ret tt
                    /\ logged ERROR
                         (if negb key then "Missing required Tavus API key (TAVUS_API_KEY)"
                          else if negb replica
                               then "Missing required Tavus Replica ID (TAVUS_REPLICA_ID)"
                               else "Missing required Tavus Persona ID (TAVUS_PERSONA_ID)")
                         tr
                    /\ calls is_new_AvatarSession tr = 0%nat
                    /\ calls is_avatar_start tr = 0%nat
                    /\ calls is_session_start tr = 0%nat
                    /\ calls is_aclose tr = 0%nat
                    /\ ~ logged INFO "[ACTIVE] English Teacher Agent (voice-only) is now active!" tr
                    /\ session fs = Some s
                    /\ globals fs = globals f
                end).
    { subst r key replica persona. destruct f as [[stop count] s0 a te ai].
      reduce_py_in Hmissing.
      symex.
      all: split; [reflexivity|].
      all: split; [in_trace|].
      all: split; [count_events; reflexivity|].
      all: split; [count_events; reflexivity|].
      all: split; [count_events; reflexivity|].
      all: split; [count_events; reflexivity|].
      all: split; [absent|].
      all: split; first [reflexivity | congruence]. }
    destruct r; exact H.
  - intros Henv a.
    destruct (apply_fallbacks_tavus g t lk ls env) as (Hk & Hr & Hp).
    rewrite <- !Henv in Hk, Hr, Hp.
    assert (Hkey : key = true)
      by (subst key; rewrite Hk; apply or_fallback_truthy; exact Ht).
    assert (Hreplica : replica = true)
      by (subst replica; rewrite Hr; apply or_fallback_truthy; discriminate).
    assert (Hpersona : persona = true)
      by (subst persona; rewrite Hp; apply or_fallback_truthy; discriminate).
    split; [rewrite Hkey, Hreplica, Hpersona; reflexivity|].
    assert (Hcfg : configured_avatar w = Some a).
    { unfold configured_avatar. fold key replica persona.
      rewrite Hkey, Hreplica, Hpersona, Hr, Hp. reflexivity. }
    pose proof (entrypoint_passes_guards w f s a Hsel Hcfg) as H.
    subst r. destruct (entrypoint w f). exact H.
Qed.

Lemma missing_avatar_config_ends_attempt_witness :
  calls is_new_AvatarSession (trace (entrypoint persona_unset (enter initial_globals)))
  = 1%nat
  /\ outcome (entrypoint no_persona (enter initial_globals)) = Ret tt.
Proof.
  split.
  - refine (proj1 (proj2 (proj2 (proj2
             (missing_avatar_config_ends_attempt "g" "t" "k" "s" (getenv no_persona)
                persona_unset (enter initial_globals) {| llm := gemini_llm |}
                _ _) (fun _ => eq_refl))))).
    + discriminate.
    + reflexivity.
  - refine (proj1 (proj1
             (missing_avatar_config_ends_attempt "g" "t" "k" "s" (fun _ => None)
                no_persona (enter initial_globals) {| llm := gemini_llm |}
                _ _) _)).
    + discriminate.
    + reflexivity.
    + reflexivity.
Defined.

(** C6, as stated, fails: in a process started without a persona id the
    fallback id is taken, the avatar is constructed and started with it,
    and the agent is not voice-only. *)
Lemma missing_persona_counterexample :
  let r := entrypoint persona_unset (enter initial_globals) in
  getenv no_persona "TAVUS_PERSONA_ID" = None
  /\ (forall k, getenv persona_unset k
                = final (apply_fallbacks "g" "t" "k" "s" (getenv no_persona)) k)
  /\ In (Ext (new_AvatarSession
                {| replica_id := "r1"; persona_id := "p405fa2e1e31";
                   avatar_participant_name := "English-Teacher-Avatar" |}))
        (trace r)
  /\ calls is_new_AvatarSession (trace r) = 1%nat
  /\ calls is_avatar_start (trace r) = 1%nat
  /\ avatar_initialized (final r) = true
  /\ ~ logged INFO "[ACTIVE] English Teacher Agent (voice-only) is now active!" (trace r).
Proof.
  cbv zeta. split; [reflexivity|]. split; [reflexivity|].
  split; [vm_compute; repeat first [left; reflexivity | right]|].
  split; [vm_compute; reflexivity|]. split; [vm_compute; reflexivity|].
  split; [vm_compute; reflexivity|].
  unfold logged. intros H. vm_compute in H.
  repeat (destruct H as [H|H]; [discriminate H|]). exact H.
Qed.

(** Every start of an avatar in a trace is the one expected. *)
Ltac only_call Hin :=
  repeat match type of Hin with
         | In _ (_ ++ _) => apply in_app_or in Hin; destruct Hin as [Hin|Hin]
         | In _ (_ :: _) =>
             destruct Hin as [Hin|Hin];
             [first [discriminate Hin | injection Hin as <- <- <-; repeat split]|]
         | In _ [] => destruct Hin
         | In _ ?t =>
             match goal with
             | H : Forall _ t |- _ =>
                 let K := fresh in
                 pose proof (proj1 (Forall_forall _ _) H _ Hin) as K;
                 cbn in K; discriminate K
             end
         end.

(** C7, amended. Whatever ends the avatar's construction or its start
    (an API status error, the expiry of the 30 seconds, any other
    exception), the attempt goes on: the avatar is not marked initialised
    and is not tried again, its start was called at most once and with the
    timeout of 30 seconds, the session the selector gave is the one
    started, exactly once, and [entrypoint] raises only if [session.start]
    itself does; when it does not, the session is left open and the agent
    is announced voice-only. What is kept of the avatar: the error, except
    for a timeout, in [tavus_error]; and, when the construction went
    through and only the start failed, the constructed object in the local
    [avatar]. *)
Theorem avatar_failure_not_fatal (w : World) (f : Frame) (s : AgentSession)
    (a : AvatarSession) (e : exn) :
  selected w = Some s ->
  configured_avatar w = Some a ->
  avatar_failure w a = Some e ->
  let r := entrypoint w f in
  let constructed :=
    match AvatarSession_raises w a with None => true | Some _ => false end in
  avatar_initialized (final r) = false
  /\ avatar (final r) = (if constructed then Some a else None)
  /\ tavus_error (final r)
     = match e with TimeoutError => None | _ => Some e end
  /\ calls is_new_AvatarSession (trace r) = 1%nat
  /\ calls is_avatar_start (trace r) = (if constructed then 1%nat else 0%nat)
  /\ (forall a' s' t,
        In (Ext (avatar_start a' s' t)) (trace r) -> a' = a /\ s' = s /\ t = 30)
  /\ (e = TimeoutError ->
      logged WARNING
        "Tavus avatar initialization timed out, falling back to voice-only mode"
        (trace r))
  /\ session (final r) = Some s
  /\ In (Ext (session_start s)) (trace r)
  /\ calls is_session_start (trace r) = 1%nat
  /\ (forall e', outcome r = Exc e' -> session_start_raises w = Some e')
  /\ (session_start_raises w = None ->
      calls is_aclose (trace r) = 0%nat
      /\ logged INFO "[ACTIVE] English Teacher Agent (voice-only) is now active!" (trace r)
      /\ ~ logged INFO "[ACTIVE] English Teacher Agent with Tavus Avatar is now active!" (trace r)).
Proof.
  intros Hsel Hcfg Hfail r constructed.
  assert (H : match r with
              | {| final := fs; trace := tr; outcome := o |} =>
                  avatar_initialized fs = false
                  /\ avatar fs = (if constructed then Some a else None)
                  /\ tavus_error fs
                     = match e with TimeoutError => None | _ => Some e end
                  /\ calls is_new_AvatarSession tr = 1%nat
                  /\ calls is_avatar_start tr = (if constructed then 1%nat else 0%nat)
                  /\ (forall a' s' t,
                        In (Ext (avatar_start a' s' t)) tr -> a' = a /\ s' = s /\ t = 30)
                  /\ (e = TimeoutError ->
                      logged WARNING
                        "Tavus avatar initialization timed out, falling back to voice-only mode"
                        tr)
                  /\ session fs = Some s
                  /\ In (Ext (session_start s)) tr
                  /\ calls is_session_start tr = 1%nat
                  /\ (forall e', o = Exc e' -> session_start_raises w = Some e')
                  /\ (session_start_raises w = None ->
                      calls is_aclose tr = 0%nat
                      /\ logged INFO "[ACTIVE] English Teacher Agent (voice-only) is now active!" tr
                      /\ ~ logged INFO "[ACTIVE] English Teacher Agent with Tavus Avatar is now active!" tr)
              end).
  { subst r constructed. destruct f as [[stop count] s0 a0 te ai].
    reduce_py_in Hcfg. reduce_py_in Hfail.
    symex.
    all: split; [first [reflexivity | assumption]|].
    all: split; [first [reflexivity | assumption]|].
    all: split; [first [reflexivity | assumption]|].
    all: split; [count_events; reflexivity|].
    all: split; [count_events; reflexivity|].
    all: split; [intros a' s' t Hin; only_call Hin|].
    all: split; [intros He; first [discriminate He | in_trace]|].
    all: split; [first [reflexivity | assumption]|].
    all: split; [in_trace|].
    all: split; [count_events; reflexivity|].
    all: split; [intros; congruence|].
    all: intros Hstart; try congruence.
    all: split; [count_events; reflexivity|].
    all: split; [in_trace | absent]. }
  destruct r; exact H.
Qed.

Lemma avatar_failure_not_fatal_witness :
  let r := entrypoint (avatar_start_ends TimeoutError) (enter initial_globals) in
  avatar_initialized (final r) = false
  /\ calls is_session_start (trace r) = 1%nat.
Proof.
  pose proof (avatar_failure_not_fatal (avatar_start_ends TimeoutError)
                (enter initial_globals) {| llm := gemini_llm |} teacher_avatar
                TimeoutError eq_refl eq_refl eq_refl) as H.
  split; [exact (proj1 H) | exact (proj1 (proj2 (proj2 (proj2 (proj2 (proj2 (proj2 (proj2 (proj2 (proj2 H))))))))))].
Defined.

(** C7, as stated, fails: after a start that timed out the constructed
    avatar is still bound to the local [avatar], though it is not
    initialised. *)
Lemma retained_avatar_counterexample :
  let r := entrypoint (avatar_start_ends TimeoutError) (enter initial_globals) in
  avatar_start_raises (avatar_start_ends TimeoutError) = Some TimeoutError
  /\ avatar_initialized (final r) = false
  /\ avatar (final r) = Some teacher_avatar
  /\ avatar (final r) <> avatar (enter initial_globals).
Proof. vm_compute. repeat split; discriminate. Qed.



(** ** The retry loop *)


(** The third crash is followed by 15 seconds. *)
Example backoff_third_crash (ds : nat -> option Z) (i : nat) (e : exn) :
  let r := on_crash ds i e {| _shutdown_requested := false; _restart_count := 2 |} in
  _restart_count (final r) = 3 /\ sleeps (trace r) = [15].
Proof. cbv zeta. reduce_py. destruct (ds i); split; reflexivity. Qed.


Lemma may_start_true (g : Globals) :
  may_start g = true
  <-> _shutdown_requested g = false /\ _restart_count g < _max_restarts.
Proof.
  unfold may_start. rewrite andb_true_iff, negb_true_iff, Z.ltb_lt. reflexivity.
Qed.

Lemma may_start_false (g : Globals) :
  may_start g = false
  <-> _shutdown_requested g = true \/ _max_restarts <= _restart_count g.
Proof.
  unfold may_start. rewrite andb_false_iff, negb_false_iff, Z.ltb_ge. reflexivity.
Qed.

Section Loop.
Variable run_app : nat -> M Globals (option BaseException).
Variable ds : nat -> option Z.

(** With the condition of the [while] false the loop does nothing. *)
Lemma restart_loop_stopped (fuel i : nat) (g : Globals) :
  may_start g = false ->
  restart_loop run_app ds fuel i g = {| final := g; trace := []; outcome := Ret tt |}
  /\ attempts run_app ds fuel i g = [].
Proof.
  intros Hg. destruct fuel; cbn [restart_loop attempts];
    unfold bind, read, ret; cbn; rewrite Hg; split; reflexivity.
Qed.


Hypothesis run_app_counts_up :
  forall i g, _restart_count g <= _restart_count (final (run_app i g)).

(** One turn of the loop, when the attempt comes back: it leaves by
    [break], or has counted a restart, or the shutdown flag is set. *)
Lemma iteration_progress (i : nat) (g : Globals) :
  (exists b, outcome (run_app i g) = Ret b) ->
  match iteration run_app ds i g with
  | {| final := g'; trace := _; outcome := o |} =>
      _restart_count g <= _restart_count g'
      /\ (o = Ret true
          \/ (o = Ret false
              /\ (_restart_count g < _restart_count g'
                  \/ _shutdown_requested g' = true)))
  end.
Proof.
  intros [b Hb]. pose proof (run_app_counts_up i g) as Hup.
  reduce_py.
  destruct (run_app i g) as [[stop count] t o]. cbn in Hb, Hup. subst o.
  destruct g as [stop0 count0]. cbn in Hup.
  destruct b as [[|e]|]; reduce_py.
  - split; [exact Hup | left; reflexivity].
  - destruct (count <? _max_restarts) eqn:Hlt; destruct (ds i); reduce_py;
      (split; [lia|]); first [left; reflexivity | right; split; [reflexivity|left; lia]].
  - destruct stop; [|destruct (ds i)]; reduce_py;
      (split; [lia|]); right; split; try reflexivity;
      first [right; reflexivity | left; lia].
Qed.



(** The loop ends within [_max_restarts - _restart_count] turns when every
    attempt comes back. *)
Lemma restart_loop_terminates :
  (forall i g, exists b, outcome (run_app i g) = Ret b) ->
  forall fuel i g,
    (Z.to_nat (_max_restarts - _restart_count g) <= fuel)%nat ->
    outcome (restart_loop run_app ds fuel i g) = Ret tt
    /\ (List.length (attempts run_app ds fuel i g)
        <= Z.to_nat (_max_restarts - _restart_count g))%nat.
Proof.
  intros Hback. induction fuel as [|fuel IH]; intros i g Hfuel.
  - destruct (may_start g) eqn:Hg.
    + apply may_start_true in Hg. destruct Hg as [_ Hg]. exfalso. lia.
    + destruct (restart_loop_stopped 0 i g Hg) as [-> ->]. cbn [outcome Datatypes.length]. split; [reflexivity | lia].
  - destruct (may_start g) eqn:Hg.
    2:{ destruct (restart_loop_stopped (S fuel) i g Hg) as [-> ->].
        cbn [outcome Datatypes.length]. split; [reflexivity | lia]. }
    pose proof (iteration_progress i g (Hback i g)) as Hstep.
    cbn [restart_loop attempts]. unfold bind at 1, read. cbn [final trace outcome]. rewrite Hg.
    unfold bind at 1.
    destruct (iteration run_app ds i g) as [g' t' o'].
    destruct Hstep as [Hle [-> | [-> Hgrow]]]; cbn [final trace outcome ret Datatypes.length].
    + apply may_start_true in Hg. destruct Hg as [_ Hg]. split; [reflexivity | lia].
    + apply may_start_true in Hg. destruct Hg as [_ Hg].
      destruct Hgrow as [Hgrow | Hflag].
      * destruct (IH (S i) g') as [Ho Hn]; [lia|].
        destruct (restart_loop run_app ds fuel (S i) g') as [g2 t2 o2].
        cbn [outcome] in Ho. subst o2. cbn [outcome Datatypes.length]. split; [reflexivity | lia].
      * assert (Hstop : may_start g' = false)
          by (apply may_start_false; left; exact Hflag).
        destruct (restart_loop_stopped fuel (S i) g' Hstop) as [-> ->].
        cbn [outcome Datatypes.length]. split; [reflexivity | lia].
Qed.
(** So [run_agent_with_auto_restart] returns. *)
Lemma run_agent_with_auto_restart_returns :
  (forall i g, exists b, outcome (run_app i g) = Ret b) ->
  forall g,
    outcome (run_agent_with_auto_restart run_app ds
               (Z.to_nat (_max_restarts - _restart_count g)) g) = Ret tt.
Proof.
  intros Hback g.
  destruct (restart_loop_terminates Hback
              (Z.to_nat (_max_restarts - _restart_count g)) 0%nat g (le_n _))
    as [Hloop _].
  unfold run_agent_with_auto_restart.
  cbv [bind log emit final trace outcome].
  destruct (restart_loop run_app ds _ 0%nat g) as [g' t' o'].
  cbn [outcome] in Hloop. subst o'. reflexivity.
Qed.

End Loop.




(** A turn of the loop whose attempt crashed: the handler of the crash
    runs on what the attempt left. *)
Lemma iteration_crashed (run_app : nat -> M Globals (option BaseException))
    (ds : nat -> option Z) (i : nat) (g g1 : Globals) (t1 : list Event) (e : exn) :
  run_app i g = {| final := g1; trace := t1; outcome := Ret (Some (Exn e)) |} ->
  iteration run_app ds i g
  = {| final := final (on_crash ds i e g1);
       trace := (Log INFO "SSL verification disabled for development"
                 :: Log INFO "[START] Starting LiveKit agent..."
                 :: t1 ++ trace (on_crash ds i e g1))%list;
       outcome := outcome (on_crash ds i e g1) |}.
Proof.
  intros Hrun.
  cbv [iteration bind configure_ssl_for_development log emit final trace outcome].
  rewrite Hrun. destruct (on_crash ds i e g1). reflexivity.
Qed.

(** C10, amended. When [entrypoint] raises with shutdown not requested and
    the counter below the maximum, it has counted a restart itself and
    slept 5 seconds; the handler of the loop then counts a second one and
    sleeps its backoff only if the counter is still below the maximum
    after the first, and otherwise gives up at once. *)
Theorem crash_counted_twice (ws : nat -> World) (ds : nat -> option Z) (i : nat)
    (g : Globals) (e : exn) :
  _shutdown_requested g = false ->
  _restart_count g < _max_restarts ->
  outcome (entrypoint (ws i) (enter g)) = Exc e ->
  let attempt := entrypoint (ws i) (enter g) in
  let turn := iteration (in_process ws) ds i g in
  let again := _restart_count g + 1 <? _max_restarts in
  _restart_count (globals (final attempt)) = _restart_count g + 1
  /\ sleeps (trace attempt) = [5]
  /\ _restart_count (final turn)
     = (if again then _restart_count g + 2 else _restart_count g + 1)
  /\ sleeps (trace turn)
     = 5 :: (if again then [Z.min 60 (5 * (_restart_count g + 2))] else [])
  /\ outcome turn = Ret (negb again).
Proof.
  intros Hflag Hcount Hraise attempt turn again. subst attempt turn again.
  pose proof (entrypoint_summary (ws i) (enter g)) as H.
  destruct (entrypoint (ws i) (enter g)) as [fs tr o] eqn:Hrun.
  cbn [outcome] in Hraise. subst o.
  rewrite (iteration_crashed (in_process ws) ds i g (globals fs) tr e)
    by (unfold in_process; rewrite Hrun; reflexivity).
  destruct g as [stop count]. cbn in Hflag, Hcount. subst stop.
  reduce_py_in H. apply Z.ltb_lt in Hcount. rewrite Hcount in H.
  destruct H as (Hg & Hs & _).
  destruct fs as [g' s' a' te' ai']. cbn in Hg. subst g'.
  reduce_py.
  destruct (count + 1 <? _max_restarts); destruct (ds i); reduce_py;
    cbn [sleeps]; rewrite ?sleeps_app, ?Hs; cbn [sleeps app];
    replace (count + 1 + 1) with (count + 2) by lia; repeat split.
Qed.

Lemma crash_counted_twice_witness :
  let turn := iteration (in_process (fun _ => no_backend)) (fun _ => None) 0
                initial_globals in
  _restart_count (final turn) = 2 /\ sleeps (trace turn) = [5; 10].
Proof.
  pose proof (crash_counted_twice (fun _ => no_backend) (fun _ => None) 0%nat
                initial_globals
                (Exception "Failed to create session with either Ollama or Gemini")
                eq_refl eq_refl eq_refl) as (_ & _ & Hc & Hs & _).
  split; [exact Hc | exact Hs].
Defined.

(** C10, as stated, fails: with the counter at 9 the entrypoint's own count
    reaches the maximum, and the handler of the loop neither counts again
    nor sleeps. *)
Lemma second_count_counterexample :
  let g := {| _shutdown_requested := false; _restart_count := 9 |} in
  let turn := iteration (in_process (fun _ => no_backend)) (fun _ => None) 0 g in
  outcome (entrypoint no_backend (enter g))
  = Exc (Exception "Failed to create session with either Ollama or Gemini")
  /\ _restart_count (final turn) = 10
  /\ _restart_count (final turn) <> 9 + 2
  /\ sleeps (trace turn) = [5]
  /\ outcome turn = Ret true.
Proof. vm_compute. repeat split; discriminate. Qed.

(** ** Liveness endpoint *)

(** C9, amended. Both handlers answer every GET with status 200; on
    [/health] with the JSON text of the description, written with a blank
    after each colon and comma; on any other path with the plain text
    "English Teacher Agent is running" ([render_app.py]) or
    "English Teacher Agent is running on Render" ([agent.py]). *)
Theorem health_check_responses (path : string) :
  status (render_app.do_GET path) = 200
  /\ status (agent.do_GET path) = 200
  /\ (if String.eqb path "/health" then
        headers (render_app.do_GET path) = [("Content-type", "application/json")]
        /\ headers (agent.do_GET path) = [("Content-type", "application/json")]
        /\ body (render_app.do_GET path) = health_body
        /\ body (agent.do_GET path) = health_body
        /\ json_squeeze false health_body = health_json_compact
      else
        headers (render_app.do_GET path) = [("Content-type", "text/plain")]
        /\ headers (agent.do_GET path) = [("Content-type", "text/plain")]
        /\ body (render_app.do_GET path) = "English Teacher Agent is running"
        /\ body (agent.do_GET path) = "English Teacher Agent is running on Render").
Proof.
  unfold render_app.do_GET, agent.do_GET.
  destruct (String.eqb path "/health"); cbn [status headers body]; repeat split.
Qed.

(** C9, as stated, fails: the body for a path other than [/health] is not
    the text "agent is running". *)
Lemma other_path_body_counterexample :
  body (render_app.do_GET "/") <> "agent is running"
  /\ body (agent.do_GET "/") <> "agent is running"
  /\ body (render_app.do_GET "/") = "English Teacher Agent is running"
  /\ body (render_app.do_GET "/health") <> health_json_compact.
Proof. vm_compute. repeat split; discriminate. Qed.

(** * Further properties *)

(** ** Module initialisation *)

(** One fallback: it returns, the variable is set afterwards, a variable
    that was set keeps its value, and no other variable changes. *)
Lemma fallback_runs (k v msg : string) (env : Environ) :
  v <> EmptyString ->
  let r := fallback k v msg env in
  outcome r = Ret tt
  /\ truthy (final r k) = true
  /\ (forall k', truthy (env k') = true -> final r k' = env k')
  /\ (forall k', k' <> k -> final r k' = env k')
  /\ (truthy (env k) = true -> trace r = []).
Proof.
  intros Hv. unfold fallback. cbv [bind read write log emit ret final trace outcome].
  destruct (truthy (env k)) eqn:Hk; cbn.
  - repeat split; auto.
  - repeat split.
    + unfold setenv. rewrite String.eqb_refl. apply truthy_nonempty. exact Hv.
    + intros k' Hk'. unfold setenv.
      destruct (String.eqb_spec k' k) as [->|]; [congruence | reflexivity].
    + intros k' Hne. unfold setenv.
      destruct (String.eqb_spec k' k); [contradiction | reflexivity].
    + discriminate.
Qed.

Lemma fallback_fills (k v msg : string) (env : Environ) :
  v <> EmptyString -> fills (fallback k v msg) [k] env.
Proof.
  intros Hv. destruct (fallback_runs k v msg env Hv) as (Ho & Hk & Hkeep & Hother & Hquiet).
  repeat split.
  - exact Ho.
  - intros k' [<-|[]]. exact Hk.
  - exact Hkeep.
  - intros k' Hk'. apply Hother. intros ->. apply Hk'. left. reflexivity.
  - intros Hset. apply Hquiet. apply Hset. left. reflexivity.
Qed.

Lemma fallback_then_fills (k v msg : string) (c : M Environ unit) (ks : list string) :
  v <> EmptyString ->
  (forall env, fills c ks env) ->
  forall env, fills (fallback k v msg ;; c) (k :: ks) env.
Proof.
  intros Hv Hc env.
  destruct (fallback_runs k v msg env Hv) as (Ho & Hk & Hkeep & Hother & Hquiet).
  destruct (bind_returns (fallback k v msg) (fun _ => c) env tt Ho) as (Hf & Hout & Htr).
  destruct (Hc (final (fallback k v msg env))) as (Ho' & Hks & Hkeep' & Hother' & Hquiet').
  unfold fills. rewrite Hf, Hout, Htr. repeat split.
  - exact Ho'.
  - intros k' [<-|Hin]; [|apply Hks; exact Hin].
    rewrite Hkeep' by exact Hk. exact Hk.
  - intros k' Hset. rewrite Hkeep'; rewrite Hkeep; auto.
  - intros k' Hout'. rewrite Hother'.
    + apply Hother. intros ->. apply Hout'. left. reflexivity.
    + intros Hin. apply Hout'. right. exact Hin.
  - intros Hset. rewrite Hquiet by (apply Hset; left; reflexivity).
    cbn [app]. apply Hquiet'. intros k' Hin.
    rewrite Hkeep; apply Hset; right; exact Hin.
Qed.

Lemma apply_fallbacks_fills (g t lk ls : string) (env : Environ) :
  g <> EmptyString -> t <> EmptyString -> lk <> EmptyString -> ls <> EmptyString ->
  fills (apply_fallbacks g t lk ls) credential_keys env.
Proof.
  intros Hg Ht Hlk Hls. revert env. unfold apply_fallbacks, credential_keys.
  repeat (apply fallback_then_fills; [first [assumption | discriminate]|]).
  intros env. apply fallback_fills. assumption.
Qed.

(** X1. After the fallbacks of lines 69-96 every one of the seven
    variables is set and not empty; a variable that was set keeps its
    value, and no other variable is touched. *)
Theorem fallbacks_fill_environment (g t lk ls : string) (env : Environ) :
  g <> EmptyString -> t <> EmptyString -> lk <> EmptyString -> ls <> EmptyString ->
  let after := final (apply_fallbacks g t lk ls env) in
  outcome (apply_fallbacks g t lk ls env) = Ret tt
  /\ (forall k, In k credential_keys -> truthy (after k) = true)
  /\ (forall k, truthy (env k) = true -> after k = env k)
  /\ (forall k, ~ In k credential_keys -> after k = env k).
Proof.
  intros Hg Ht Hlk Hls after.
  destruct (apply_fallbacks_fills g t lk ls env Hg Ht Hlk Hls) as (H1 & H2 & H3 & H4 & _).
  repeat split; assumption.
Qed.

Lemma fallbacks_fill_environment_witness :
  truthy (final (apply_fallbacks "g" "t" "k" "s" (fun _ => None)) "TAVUS_PERSONA_ID") = true
  /\ final (apply_fallbacks "g" "t" "k" "s" (fun _ => None)) "PORT" = None.
Proof.
  destruct (fallbacks_fill_environment "g" "t" "k" "s" (fun _ => None))
    as (_ & Hset & _ & Hother); try discriminate.
  split.
  - apply Hset. unfold credential_keys. cbn. tauto.
  - apply (Hother "PORT").
    unfold credential_keys. cbn. intuition discriminate.
Defined.

Lemma report_set (k : string) (env : Environ) :
  truthy (env k) = true ->
  report k env
  = {| final := env; trace := [Log INFO ("  " ++ k ++ ": OK")]; outcome := Ret tt |}.
Proof.
  intros H. unfold report. cbv [bind read log emit final trace outcome].
  rewrite H. reflexivity.
Qed.

(** X2. After the fallbacks the report of lines 99-106 is the heading
    and one line ending in OK for each of the seven variables, in the order
    of the source, so that no variable is marked MISSING; and running the
    fallbacks a second time changes nothing and logs nothing. *)
Theorem report_after_fallbacks (g t lk ls : string) (env : Environ) :
  g <> EmptyString -> t <> EmptyString -> lk <> EmptyString -> ls <> EmptyString ->
  let after := final (apply_fallbacks g t lk ls env) in
  all_reported_ok (trace (report_environment after))
  /\ trace (report_environment after)
     = [Log INFO "Environment variables status:";
        Log INFO "  LIVEKIT_URL: OK";
        Log INFO "  LIVEKIT_API_KEY: OK";
        Log INFO "  LIVEKIT_API_SECRET: OK";
        Log INFO "  GOOGLE_API_KEY: OK";
        Log INFO "  TAVUS_API_KEY: OK";
        Log INFO "  TAVUS_REPLICA_ID: OK";
        Log INFO "  TAVUS_PERSONA_ID: OK"]
  /\ final (module_init g t lk ls env) = after
  /\ outcome (module_init g t lk ls env) = Ret tt
  /\ trace (apply_fallbacks g t lk ls after) = []
  /\ (forall k, final (apply_fallbacks g t lk ls after) k = after k).
Proof.
  intros Hg Ht Hlk Hls after.
  destruct (apply_fallbacks_fills g t lk ls env Hg Ht Hlk Hls) as (Ho & Hset & _).
  fold after in Hset.
  assert (Hreport : report_environment after
                    = {| final := after;
                         trace := [Log INFO "Environment variables status:";
                                   Log INFO "  LIVEKIT_URL: OK";
                                   Log INFO "  LIVEKIT_API_KEY: OK";
                                   Log INFO "  LIVEKIT_API_SECRET: OK";
                                   Log INFO "  GOOGLE_API_KEY: OK";
                                   Log INFO "  TAVUS_API_KEY: OK";
                                   Log INFO "  TAVUS_REPLICA_ID: OK";
                                   Log INFO "  TAVUS_PERSONA_ID: OK"];
                         outcome := Ret tt |}).
  { unfold report_environment.
    cbv [bind log emit final trace outcome].
    rewrite !report_set by (apply Hset; unfold credential_keys; cbn; tauto).
    reflexivity. }
  split.
  { rewrite Hreport. cbn [trace]. unfold all_reported_ok.
    repeat (apply Forall_cons; [vm_compute; reflexivity|]). apply Forall_nil. }
  split; [rewrite Hreport; reflexivity|].
  destruct (bind_returns (apply_fallbacks g t lk ls) (fun _ => report_environment) env tt Ho)
    as (Hf & Hout & _).
  unfold module_init. rewrite Hf, Hout. fold after. rewrite Hreport. cbn [final outcome].
  split; [reflexivity|]. split; [reflexivity|].
  destruct (apply_fallbacks_fills g t lk ls after Hg Ht Hlk Hls) as (_ & _ & Hkeep & Hother & Hquiet).
  split.
  - apply Hquiet. exact Hset.
  - intros k. destruct (truthy (after k)) eqn:Hk.
    + apply Hkeep. exact Hk.
    + apply Hother. intros Hin. rewrite (Hset k Hin) in Hk. discriminate.
Qed.

Lemma report_after_fallbacks_witness :
  all_reported_ok
    (trace (report_environment
              (final (apply_fallbacks "g" "t" "k" "s" (fun _ => None))))).
Proof.
  refine (proj1 (report_after_fallbacks "g" "t" "k" "s" (fun _ => None) _ _ _ _));
    discriminate.
Defined.

(** With the three Tavus values set, [entrypoint] passes the guards of
    lines 190-200: it constructs the avatar and starts the session. *)
Lemma entrypoint_configured (w : World) (f : Frame) (s : AgentSession) :
  truthy (getenv w "TAVUS_API_KEY") = true ->
  truthy (getenv w "TAVUS_REPLICA_ID") = true ->
  truthy (getenv w "TAVUS_PERSONA_ID") = true ->
  selected w = Some s ->
  match entrypoint w f with
  | {| final := _; trace := tr; outcome := _ |} =>
      calls is_new_AvatarSession tr = 1%nat
      /\ calls is_session_start tr = 1%nat
  end.
Proof.
  intros Hkey Hreplica Hpersona Hsel.
  destruct f as [[stop count] s0 a0 te ai].
  reduce_py_in Hkey. reduce_py_in Hreplica. reduce_py_in Hpersona.
  symex; split; count_events; reflexivity.
Qed.

(** X3. In a process whose environment is the one the fallbacks left, the
    guards of lines 190-200 never end the attempt: once a backend is
    selected the avatar is constructed and the session started, each
    exactly once. *)
Theorem guards_pass_after_fallbacks (g t lk ls : string) (env : Environ)
    (w : World) (f : Frame) (s : AgentSession) :
  g <> EmptyString -> t <> EmptyString -> lk <> EmptyString -> ls <> EmptyString ->
  (forall k, getenv w k = final (apply_fallbacks g t lk ls env) k) ->
  selected w = Some s ->
  let r := entrypoint w f in
  configured_avatar w <> None
  /\ calls is_new_AvatarSession (trace r) = 1%nat
  /\ calls is_session_start (trace r) = 1%nat.
Proof.
  intros Hg Ht Hlk Hls Henv Hsel r.
  destruct (apply_fallbacks_fills g t lk ls env Hg Ht Hlk Hls) as (_ & Hset & _).
  assert (Hkey : truthy (getenv w "TAVUS_API_KEY") = true)
    by (rewrite Henv; apply Hset; unfold credential_keys; cbn; tauto).
  assert (Hreplica : truthy (getenv w "TAVUS_REPLICA_ID") = true)
    by (rewrite Henv; apply Hset; unfold credential_keys; cbn; tauto).
  assert (Hpersona : truthy (getenv w "TAVUS_PERSONA_ID") = true)
    by (rewrite Henv; apply Hset; unfold credential_keys; cbn; tauto).
  split.
  { unfold configured_avatar. rewrite Hkey, Hreplica, Hpersona. cbn.
    destruct (getenv w "TAVUS_REPLICA_ID"); [|discriminate Hreplica].
    destruct (getenv w "TAVUS_PERSONA_ID"); [|discriminate Hpersona].
    discriminate. }
  pose proof (entrypoint_configured w f s Hkey Hreplica Hpersona Hsel) as H.
  subst r. destruct (entrypoint w f). exact H.
Qed.

Lemma guards_pass_after_fallbacks_witness :
  calls is_session_start (trace (entrypoint fresh_process (enter initial_globals)))
  = 1%nat.
Proof.
  refine (proj2 (proj2 (guards_pass_after_fallbacks "g" "t" "k" "s" (fun _ => None)
                          fresh_process (enter initial_globals)
                          {| llm := gemini_llm |} _ _ _ _ _ _)));
    try discriminate; reflexivity.
Defined.

(** ** Backend selector, further *)

(** X4. The selector constructs at most two sessions and never retries.
    When Ollama constructs, Gemini is not constructed and no fallback is
    logged; when it does not, Gemini is constructed after the fallback
    line; without the Ollama plug-in only Gemini is constructed. *)
Theorem selector_constructs_lazily (w : World) (st : Frame) :
  let tr := trace (create_session_with_fallback w st) in
  let fell_back := logged INFO "Falling back to Gemini as primary LLM" tr in
  (calls is_new_AgentSession tr <= 2)%nat
  /\ (built w LocalModel <> None ->
      calls is_new_AgentSession tr = 1%nat
      /\ ~ In (Ext (new_AgentSession gemini_llm)) tr
      /\ ~ fell_back)
  /\ (built w LocalModel = None ->
      In (Ext (new_AgentSession gemini_llm)) tr /\ fell_back)
  /\ (OLLAMA_AVAILABLE w = false \/ ollama_plugin w = None ->
      calls is_new_AgentSession tr = 1%nat).
Proof.
  cbv zeta.
  assert (H : match create_session_with_fallback w st with
              | {| final := _; trace := tr; outcome := _ |} =>
                  (calls is_new_AgentSession tr <= 2)%nat
                  /\ (built w LocalModel <> None ->
                      calls is_new_AgentSession tr = 1%nat
                      /\ ~ In (Ext (new_AgentSession gemini_llm)) tr
                      /\ ~ logged INFO "Falling back to Gemini as primary LLM" tr)
                  /\ (built w LocalModel = None ->
                      In (Ext (new_AgentSession gemini_llm)) tr
                      /\ logged INFO "Falling back to Gemini as primary LLM" tr)
                  /\ (OLLAMA_AVAILABLE w = false \/ ollama_plugin w = None ->
                      calls is_new_AgentSession tr = 1%nat)
              end).
  { unfold built, construct.
    unfold create_session_with_fallback, create_ollama_session, create_gemini_session.
    destruct (OLLAMA_AVAILABLE w) eqn:Havail;
      [destruct (ollama_plugin w) as [[]|] eqn:Hplugin|];
      symex.
    all: split; [count_events; lia|].
    all: split;
      [intros Hbuilt;
       first [ solve [congruence]
             | split; [count_events; reflexivity|]; split; absent ]|].
    all: split;
      [intros Hbuilt; first [ discriminate Hbuilt | split; in_trace ]|].
    all: intros [Hno|Hno];
      first [ discriminate Hno | count_events; reflexivity ]. }
  destruct (create_session_with_fallback w st). exact H.
Qed.

(** ** The keep-alive loop, further *)

Ltac all_paced :=
  repeat (apply Forall_cons; [reflexivity|]);
  first [apply Forall_nil | assumption].

(** How the loop leaves: it returns when the flag is set or a tick ends
    it, and is still running only when neither happened; it sleeps 30
    seconds at most once per tick and calls nothing. *)
Lemma keep_alive_loop_exits (ts : list Tick) (f : Frame) :
  match keep_alive_loop ts f with
  | {| final := fs; trace := tr; outcome := o |} =>
      (o = Ret tt ->
       _shutdown_requested (globals fs) = true
       \/ existsb ends_keep_alive ts = true)
      /\ (o = Pending ->
          _shutdown_requested (globals fs) = false
          /\ existsb ends_keep_alive ts = false)
      /\ (existsb ends_keep_alive ts = true -> o = Ret tt)
      /\ Forall (fun e => keep_alive_paced e = true) tr
      /\ (List.length (sleeps tr) <= List.length ts)%nat
  end.
Proof.
  revert f. induction ts as [|t ts IH]; intros [[stop count] s a te ai].
  - cbn [keep_alive_loop]. destruct stop; reduce_py.
    all: split; [intros; auto; discriminate|].
    all: split; [intros; auto; discriminate|].
    all: split; [intros; auto; discriminate|].
    all: split; [constructor | cbn; lia].
  - cbn [keep_alive_loop]. destruct stop.
    { reduce_py. split; [auto|]. split; [discriminate|]. split; [auto|].
      split; [constructor | cbn; lia]. }
    destruct t as [[signum|] [e|[[]|]]]; reduce_py;
      cbn [existsb ends_keep_alive sample orb].
    all: try (split; [intros _; auto|]; split; [discriminate|];
              split; [auto|]; split; [all_paced | cbn; lia]).
    all: match goal with
         | |- context [keep_alive_loop ?l ?st] =>
             specialize (IH st); destruct (keep_alive_loop l st) as [fs tr o]
         end;
         reduce_py; reduce_py_in IH;
         destruct IH as (H1 & H2 & H3 & H4 & H5).
    all: split; [exact H1|].
    all: split; [exact H2|].
    all: split; [exact H3|].
    all: split; [all_paced | cbn [sleeps Datatypes.length]; lia].
Qed.

Lemma paced_sleeps (tr : list Event) :
  Forall (fun e => keep_alive_paced e = true) tr ->
  sleeps tr = repeat 30 (List.length (sleeps tr)).
Proof.
  induction 1 as [|e tr He _ IH]; [reflexivity|].
  destruct e as [lvl m|n|c|sg]; cbn in *; try exact IH.
  apply Z.eqb_eq in He. subst n. f_equal. exact IH.
Qed.

Lemma paced_no_call (p : Call -> bool) (tr : list Event) :
  Forall (fun e => keep_alive_paced e = true) tr -> calls p tr = 0%nat.
Proof.
  induction 1 as [|e tr He _ IH]; [reflexivity|].
  unfold calls in *. destruct e; cbn in *; try exact IH. discriminate He.
Qed.

(** [keep_session_alive] is its loop between two log lines. *)
Lemma keep_session_alive_runs (w : World) (f : Frame) :
  match keep_alive_loop (ticks w) f, keep_session_alive w f with
  | {| final := fs; trace := tr; outcome := o |},
    {| final := fs'; trace := tr'; outcome := o' |} =>
      fs' = fs /\ o' = o /\ sleeps tr' = sleeps tr
      /\ forall p, calls p tr' = calls p tr
  end.
Proof.
  unfold keep_session_alive. cbv [bind log emit].
  destruct (keep_alive_loop (ticks w) f) as [fs tr [[]|e|]]; cbn [app];
    repeat split; intros; unfold calls;
    cbn [sleeps filter is_call]; rewrite ?sleeps_app, ?filter_app;
    cbn [sleeps filter is_call]; rewrite ?app_nil_r; reflexivity.
Qed.

(** X5. [keep_session_alive] never raises. It returns only with the
    shutdown flag set or after a tick that found the room disconnected or
    raised; it is still running only when no tick did and the flag is
    clear; it returns whenever some tick ends it, and at once when the flag
    is already set. *)
Theorem keep_alive_exit_conditions (w : World) (f : Frame) :
  let r := keep_session_alive w f in
  (forall e, outcome r <> Exc e)
  /\ (outcome r = Ret tt ->
      _shutdown_requested (globals (final r)) = true
      \/ existsb ends_keep_alive (ticks w) = true)
  /\ (outcome r = Pending ->
      _shutdown_requested (globals (final r)) = false
      /\ existsb ends_keep_alive (ticks w) = false)
  /\ (existsb ends_keep_alive (ticks w) = true -> outcome r = Ret tt)
  /\ (_shutdown_requested (globals f) = true -> outcome r = Ret tt).
Proof.
  intros r. subst r.
  pose proof (keep_session_alive_runs w f) as Hrun.
  pose proof (keep_alive_loop_exits (ticks w) f) as Hexit.
  pose proof (keep_alive_loop_spec (ticks w) f) as Hspec.
  destruct (keep_alive_loop (ticks w) f) as [fs tr o] eqn:Hloop.
  destruct (keep_session_alive w f) as [fs' tr' o'].
  destruct Hrun as (-> & -> & _). cbn [final outcome].
  destruct Hexit as (H1 & H2 & H3 & _). destruct Hspec as (Hexc & _ & Hflag & _).
  repeat split; try assumption; try (apply H2; assumption).
  intros Hset. specialize (Hflag Hset).
  destruct o as [[]|e|]; [reflexivity | destruct (Hexc e eq_refl) |].
  destruct (H2 eq_refl) as [Hclear _]. congruence.
Qed.

(** X6. [keep_session_alive] sleeps 30 seconds at a time, at most once
    per tick, calls no collaborator, and does not sleep at all when the
    shutdown flag is already set. *)
Theorem keep_alive_paces (w : World) (f : Frame) :
  let tr := trace (keep_session_alive w f) in
  (List.length (sleeps tr) <= List.length (ticks w))%nat
  /\ sleeps tr = repeat 30 (List.length (sleeps tr))
  /\ (forall p, calls p tr = 0%nat)
  /\ (_shutdown_requested (globals f) = true -> sleeps tr = []).
Proof.
  intros tr. subst tr.
  pose proof (keep_session_alive_runs w f) as Hrun.
  pose proof (keep_alive_loop_exits (ticks w) f) as Hexit.
  destruct (keep_session_alive w f) as [fs' tr' o'].
  cbn [trace].
  assert (Hstop : _shutdown_requested (globals f) = true ->
                  sleeps (trace (keep_alive_loop (ticks w) f)) = []).
  { intros Hset. destruct f as [[stop count] s a te ai]. cbn in Hset. subst stop.
    destruct (ticks w); reflexivity. }
  destruct (keep_alive_loop (ticks w) f) as [fs tr o].
  destruct Hrun as (_ & _ & Hs & Hc). destruct Hexit as (_ & _ & _ & Hpaced & Hlen).
  rewrite Hs. repeat split.
  - exact Hlen.
  - apply paced_sleeps. exact Hpaced.
  - intros p. rewrite Hc. apply paced_no_call. exact Hpaced.
  - exact Hstop.
Qed.

(** X7. A signal delivered during a keep-alive sleep ends the loop with
    that turn: after the sleep and the handler's line the room is still
    sampled once, and the turn logs what the sample gave (an error, the
    disconnection, or a passed check); the later ticks are not consumed,
    the flag is set and the restart counter is untouched. *)
Theorem signal_ends_keep_alive (t : Tick) (ts : list Tick) (f : Frame) (signum : Z) :
  _shutdown_requested (globals f) = false ->
  delivered t = Some signum ->
  let r := keep_alive_loop (t :: ts) f in
  r = keep_alive_loop [t] f
  /\ outcome r = Ret tt
  /\ _shutdown_requested (globals (final r)) = true
  /\ _restart_count (globals (final r)) = _restart_count (globals f)
  /\ sleeps (trace r) = [30]
  /\ In (Signal signum) (trace r)
  /\ trace r
     = [Sleep 30; Signal signum;
        Log INFO ("Received signal " ++ show signum
                  ++ ", initiating graceful shutdown...");
        match sample t with
        | inl e => Log ERROR ("Error during session keep-alive: " ++ str e)
        | inr (Some CONN_DISCONNECTED) =>
            Log WARNING "Room disconnected, attempting to reconnect..."
        | inr _ => Log DEBUG "Session health check passed"
        end].
Proof.
  intros Hclear Hsig r. subst r.
  destruct f as [[stop count] s a te ai]. cbn in Hclear. subst stop.
  destruct t as [sig smp]. cbn in Hsig. subst sig.
  cbn [keep_alive_loop].
  destruct smp as [e|[[]|]]; destruct ts; reduce_py; repeat split; in_trace.
Qed.

Lemma signal_ends_keep_alive_witness :
  outcome (keep_alive_loop
             [ {| delivered := Some 15; sample := inr (Some CONN_CONNECTED) |};
               {| delivered := None; sample := inr (Some CONN_CONNECTED) |} ]
             (enter initial_globals)) = Ret tt.
Proof.
  refine (proj1 (proj2 (signal_ends_keep_alive _ _ (enter initial_globals) 15 _ _)));
    reflexivity.
Defined.

(** ** The attempt, further *)

(** X8. When the avatar is constructed and started without exception it
    is started once, with the selected session and the timeout of 30
    seconds, and it is marked initialised with no error recorded; after a
    successful [session.start] the agent is announced with its avatar and
    no voice-only or fallback line is logged. *)
Theorem avatar_success_is_announced (w : World) (f : Frame) (s : AgentSession)
    (a : AvatarSession) :
  selected w = Some s ->
  configured_avatar w = Some a ->
  avatar_failure w a = None ->
  let r := entrypoint w f in
  In (Ext (avatar_start a s 30)) (trace r)
  /\ calls is_new_AvatarSession (trace r) = 1%nat
  /\ calls is_avatar_start (trace r) = 1%nat
  /\ avatar (final r) = Some a
  /\ avatar_initialized (final r) = true
  /\ tavus_error (final r) = None
  /\ (session_start_raises w = None ->
      logged INFO "[ACTIVE] English Teacher Agent with Tavus Avatar is now active!" (trace r)
      /\ ~ logged INFO "[ACTIVE] English Teacher Agent (voice-only) is now active!" (trace r)
      /\ ~ logged INFO " Falling back to voice-only mode..." (trace r)
      /\ ~ logged INFO "Falling back to voice-only mode..." (trace r)).
Proof.
  intros Hsel Hcfg Hok r.
  assert (H : match r with
              | {| final := fs; trace := tr; outcome := o |} =>
                  In (Ext (avatar_start a s 30)) tr
                  /\ calls is_new_AvatarSession tr = 1%nat
                  /\ calls is_avatar_start tr = 1%nat
                  /\ avatar fs = Some a
                  /\ avatar_initialized fs = true
                  /\ tavus_error fs = None
                  /\ (session_start_raises w = None ->
                      logged INFO "[ACTIVE] English Teacher Agent with Tavus Avatar is now active!" tr
                      /\ ~ logged INFO "[ACTIVE] English Teacher Agent (voice-only) is now active!" tr
                      /\ ~ logged INFO " Falling back to voice-only mode..." tr
                      /\ ~ logged INFO "Falling back to voice-only mode..." tr)
              end).
  { subst r. destruct f as [[stop count] s0 a0 te ai].
    reduce_py_in Hcfg. reduce_py_in Hok.
    symex.
    all: split; [in_trace|].
    all: split; [count_events; reflexivity|].
    all: split; [count_events; reflexivity|].
    all: split; [first [reflexivity | assumption]|].
    all: split; [first [reflexivity | assumption]|].
    all: split; [first [reflexivity | assumption]|].
    all: intros Hstart; try congruence.
    all: split; [in_trace|]; split; [absent|]; split; absent. }
  destruct r; exact H.
Qed.

Lemma avatar_success_is_announced_witness :
  avatar_initialized (final (entrypoint room_disconnects (enter initial_globals))) = true.
Proof.
  refine (proj1 (proj2 (proj2 (proj2 (proj2
            (avatar_success_is_announced room_disconnects (enter initial_globals)
               {| llm := gemini_llm |} teacher_avatar _ _ _))))));
    reflexivity.
Defined.

(** X10. When [session.start] raises, [entrypoint] raises that same
    exception after logging it twice and closing the session exactly once
    (whatever [aclose] does); it counts a restart and sleeps 5 seconds
    exactly when shutdown is not requested and the counter is below the
    maximum. *)
Theorem session_start_failure_propagates (w : World) (f : Frame) (s : AgentSession)
    (e : exn) :
  selected w = Some s ->
  configured_avatar w <> None ->
  session_start_raises w = Some e ->
  let r := entrypoint w f in
  let counted := negb (_shutdown_requested (globals f))
                 && (_restart_count (globals f) <? _max_restarts) in
  outcome r = Exc e
  /\ session (final r) = Some s
  /\ calls is_session_start (trace r) = 1%nat
  /\ calls is_aclose (trace r) = 1%nat
  /\ In (Ext (session_aclose s)) (trace r)
  /\ logged ERROR ("Failed to start agent session: " ++ str e) (trace r)
  /\ logged ERROR ("Critical error in agent entrypoint: " ++ str e) (trace r)
  /\ sleeps (trace r) = (if counted then [5] else [])
  /\ _restart_count (globals (final r))
     = (if counted then _restart_count (globals f) + 1 else _restart_count (globals f)).
Proof.
  intros Hsel Hcfg Hfail r counted.
  assert (H : match r with
              | {| final := fs; trace := tr; outcome := o |} =>
                  o = Exc e
                  /\ session fs = Some s
                  /\ calls is_session_start tr = 1%nat
                  /\ calls is_aclose tr = 1%nat
                  /\ In (Ext (session_aclose s)) tr
                  /\ logged ERROR ("Failed to start agent session: " ++ str e) tr
                  /\ logged ERROR ("Critical error in agent entrypoint: " ++ str e) tr
                  /\ sleeps tr = (if counted then [5] else [])
                  /\ _restart_count (globals fs)
                     = (if counted then _restart_count (globals f) + 1
                        else _restart_count (globals f))
              end).
  { subst r counted. destruct f as [[stop count] s0 a0 te ai].
    reduce_py_in Hcfg.
    symex.
    all: split; [reflexivity|].
    all: split; [reflexivity|].
    all: split; [count_events; reflexivity|].
    all: split; [count_events; reflexivity|].
    all: split; [in_trace|].
    all: split; [in_trace|].
    all: split; [in_trace|].
    all: split; count_events; reflexivity. }
  destruct r; exact H.
Qed.

Lemma session_start_failure_propagates_witness :
  outcome (entrypoint (session_start_ends (Exception "room is gone"))
             (enter initial_globals))
  = Exc (Exception "room is gone").
Proof.
  refine (proj1 (session_start_failure_propagates
                   (session_start_ends (Exception "room is gone"))
                   (enter initial_globals) {| llm := gemini_llm |}
                   (Exception "room is gone") _ _ _));
    first [reflexivity | discriminate].
Defined.

(** ** The retry loop, further *)

(** X13. A [KeyboardInterrupt] from the attempt ends the retry loop at
    that turn: the flag is set, nothing is counted or slept by the loop,
    and no further attempt is started. *)
Theorem keyboard_interrupt_ends_loop
    (run_app : nat -> M Globals (option BaseException)) (ds : nat -> option Z)
    (fuel i : nat) (g : Globals) :
  may_start g = true ->
  outcome (run_app i g) = Ret (Some KeyboardInterrupt) ->
  let turn := iteration run_app ds i g in
  let r := restart_loop run_app ds (S fuel) i g in
  outcome turn = Ret true
  /\ final turn = request_shutdown (final (run_app i g))
  /\ sleeps (trace turn) = sleeps (trace (run_app i g))
  /\ logged INFO "Received keyboard interrupt, shutting down..." (trace turn)
  /\ r = {| final := final turn; trace := trace turn; outcome := Ret tt |}
  /\ attempts run_app ds (S fuel) i g = [g].
Proof.
  intros Hg Hint turn r. subst turn r.
  cbn [restart_loop attempts]. rewrite Hg.
  cbv [bind read ret final trace outcome]. rewrite Hg.
  reduce_py.
  destruct (run_app i g) as [g1 t1 o1]. cbn [outcome] in Hint. subst o1.
  reduce_py. cbn [sleeps]. rewrite sleeps_app. cbn [sleeps].
  rewrite !app_nil_r.
  repeat split. in_trace.
Qed.

Lemma keyboard_interrupt_ends_loop_witness :
  attempts interrupted_app (fun _ => None) 10 0 initial_globals = [initial_globals]
  /\ _shutdown_requested
       (final (restart_loop interrupted_app (fun _ => None) 10 0 initial_globals))
     = true.
Proof.
  destruct (keyboard_interrupt_ends_loop interrupted_app (fun _ => None) 9 0
              initial_globals eq_refl eq_refl) as (_ & _ & _ & _ & Hr & Ha).
  split; [exact Ha|]. rewrite Hr. reflexivity.
Defined.





(** ** Release of the session *)

(** X11. [cleanup_resources] never raises and leaves the store alone; it
    closes the session once when there is one and logs the success line
    even when [aclose] raised; the warning of line 341 is never logged; the
    avatar argument has no effect. *)
Theorem cleanup_never_warns (w : World) (s : option AgentSession)
    (a : option AvatarSession) (st : Frame) :
  let r := cleanup_resources w s a st in
  outcome r = Ret tt
  /\ final r = st
  /\ calls is_aclose (trace r) = match s with Some _ => 1%nat | None => 0%nat end
  /\ (forall s', s = Some s' ->
      In (Ext (session_aclose s')) (trace r)
      /\ logged INFO "Agent session cleaned up" (trace r))
  /\ (forall m, ~ logged WARNING m (trace r))
  /\ r = cleanup_resources w s None st.
Proof.
  cbv zeta. destruct s as [s|]; [destruct (aclose_raises w) eqn:E|];
    reduce_py; try rewrite E; reduce_py.
  all: split; [reflexivity|]; split; [reflexivity|]; split; [reflexivity|].
  all: split; [intros s' Hs; try discriminate Hs; injection Hs as <-; split; in_trace|].
  all: split; [intros m; absent | reflexivity].
Qed.

(** ** Background mode *)

(** [int_of_text] on some texts that [int] accepts and refuses. *)
Example int_of_text_accepts :
  Background.int_of_text (" 42" ++ String "010"%char EmptyString) = inr 42
  /\ Background.int_of_text "+42" = inr 42
  /\ Background.int_of_text "4_2" = inr 42
  /\ Background.int_of_text "-007" = inr (-7)
  /\ Background.int_of_text "0" = inr 0.
Proof. vm_compute. repeat split. Qed.

Example int_of_text_refuses :
  let refused s :=
    Background.int_of_text s
    = inl (Background.OtherException
             ("invalid literal for int() with base 10: '" ++ s ++ "'")) in
  refused EmptyString /\ refused "4__2" /\ refused "_42" /\ refused "42_"
  /\ refused "4 2" /\ refused "--4" /\ refused "-" /\ refused "12a".
Proof. vm_compute. repeat split. Qed.

(** [int] reads back what [str] writes. *)
Lemma plain_string_of_uint (d : Decimal.uint) :
  Background.plain (NilEmpty.string_of_uint d) = true.
Proof. induction d; cbn; try reflexivity; exact IHd. Qed.

Lemma rstrip_plain (s : string) : Background.plain s = true -> Background.rstrip s = s.
Proof.
  induction s as [|c s IH]; [reflexivity|].
  cbn [Background.plain Background.rstrip]. intros H.
  apply andb_prop in H. destruct H as [H Hs].
  apply andb_prop in H. destruct H as [H _].
  apply andb_prop in H. destruct H as [H _].
  apply andb_prop in H. destruct H as [Hc _].
  rewrite (IH Hs). apply negb_true_iff in Hc. rewrite Hc.
  destruct s; reflexivity.
Qed.

Lemma lstrip_plain (s : string) : Background.plain s = true -> Background.lstrip s = s.
Proof.
  destruct s as [|c s]; [reflexivity|].
  cbn [Background.plain Background.lstrip]. intros H.
  apply andb_prop in H. destruct H as [H _].
  apply andb_prop in H. destruct H as [H _].
  apply andb_prop in H. destruct H as [H _].
  apply andb_prop in H. destruct H as [Hc _].
  apply negb_true_iff in Hc. rewrite Hc. reflexivity.
Qed.

Lemma ungroup_plain (s : string) (b : bool) :
  Background.plain s = true -> (s <> EmptyString \/ b = true) -> Background.ungroup b s = Some s.
Proof.
  revert b. induction s as [|c s IH]; intros b H Hne.
  - destruct Hne as [Hne| ->]; [contradiction | reflexivity].
  - cbn [Background.plain Background.ungroup] in *.
    apply andb_prop in H. destruct H as [H Hs].
    apply andb_prop in H. destruct H as [H _].
    apply andb_prop in H. destruct H as [H _].
    apply andb_prop in H. destruct H as [_ Hu].
    apply negb_true_iff in Hu. rewrite Hu.
    rewrite (IH true Hs) by (right; reflexivity). reflexivity.
Qed.

Lemma unsigned_to_uint (p : positive) :
  Background.unsigned (NilEmpty.string_of_uint (Pos.to_uint p)) = Some (Zpos p).
Proof.
  unfold Background.unsigned.
  rewrite ungroup_plain.
  - rewrite NilEmpty.usu. cbn [option_map]. f_equal.
    unfold Z.of_uint. rewrite DecimalPos.Unsigned.of_to. reflexivity.
  - apply plain_string_of_uint.
  - left. intros H.
    apply (DecimalPos.Unsigned.to_uint_nonnil p).
    destruct (Pos.to_uint p); try discriminate H. reflexivity.
Qed.

Lemma int_of_text_show (n : Z) : Background.int_of_text (show n) = inr n.
Proof.
  unfold Background.int_of_text, show.
  destruct n as [|p|p].
  - reflexivity.
  - cbn [Z.to_int NilZero.string_of_int NilZero.string_of_uint].
    pose proof (DecimalPos.Unsigned.to_uint_nonnil p) as Hnil.
    pose proof (plain_string_of_uint (Pos.to_uint p)) as Hplain.
    pose proof (unsigned_to_uint p) as Hu.
    assert (Hs : NilZero.string_of_uint (Pos.to_uint p)
                 = NilEmpty.string_of_uint (Pos.to_uint p)).
    { destruct (Pos.to_uint p); try reflexivity. contradiction. }
    rewrite Hs. unfold Background.strip. rewrite rstrip_plain, lstrip_plain by exact Hplain.
    destruct (NilEmpty.string_of_uint (Pos.to_uint p)) as [|c rest] eqn:E.
    + cbn in Hu. discriminate Hu.
    + cbn [Background.plain] in Hplain.
      apply andb_prop in Hplain. destruct Hplain as [H _].
      apply andb_prop in H. destruct H as [H Hplus].
      apply andb_prop in H. destruct H as [_ Hminus].
      apply negb_true_iff in Hplus, Hminus. rewrite Hplus, Hminus, Hu. reflexivity.
  - cbn [Z.to_int NilZero.string_of_int].
    pose proof (DecimalPos.Unsigned.to_uint_nonnil p) as Hnil.
    pose proof (plain_string_of_uint (Pos.to_uint p)) as Hplain.
    pose proof (unsigned_to_uint p) as Hu.
    assert (Hs : NilZero.string_of_uint (Pos.to_uint p)
                 = NilEmpty.string_of_uint (Pos.to_uint p)).
    { destruct (Pos.to_uint p); try reflexivity. contradiction. }
    rewrite Hs. unfold Background.strip.
    assert (Hr : Background.rstrip (String "-" (NilEmpty.string_of_uint (Pos.to_uint p)))
                 = String "-" (NilEmpty.string_of_uint (Pos.to_uint p))).
    { cbn [Background.rstrip]. rewrite rstrip_plain by exact Hplain.
      destruct (NilEmpty.string_of_uint (Pos.to_uint p)); reflexivity. }
    rewrite Hr. cbn [Background.lstrip]. change (Background.isspace "-") with false. cbv iota.
    change (Ascii.eqb "-" "-") with true. cbv iota.
    rewrite Hu. reflexivity.
Qed.

(** X15. After [run_detached_background], [check_agent_status] probes
    the spawned pid and no other, and says running exactly when the probe
    goes through; [stop_background_agent] then sends SIGTERM (or taskkill on
    win32) to that pid only, and removes the PID file once the signal went
    through. *)
Theorem spawn_status_stop (read_int : string -> Background.Error + Z)
    (h : Background.Host) (before : option string) :
  (forall n, read_int (show n) = inr n) ->
  let pid := Background.spawned h in
  let started := Background.run_detached_background h before in
  let status := Background.check_agent_status read_int h (Background.pid_file started) in
  let stopped := Background.stop_background_agent read_int h (Background.pid_file status) in
  Background.value started = pid
  /\ Background.pid_file status = Some (show pid)
  /\ (Background.platform h = Background.posix ->
      Background.kills (Background.actions status) = [(pid, 0)]
      /\ Background.kills (Background.actions stopped) = [(pid, Background.SIGTERM)]
      /\ Background.commands (Background.actions stopped) = []
      /\ (Background.value status = true <-> Background.kill_raises h pid 0 = None)
      /\ (Background.kill_raises h pid Background.SIGTERM = None ->
          Background.pid_file stopped = None))
  /\ (Background.platform h = Background.win32 ->
      Background.kills (Background.actions stopped) = []
      /\ Background.commands (Background.actions stopped)
         = ["taskkill /F /PID " ++ show pid]
      /\ Background.pid_file stopped = None).
Proof.
  intros Hread pid started status stopped. subst pid started status stopped.
  unfold Background.run_detached_background, Background.check_agent_status,
    Background.stop_background_agent.
  cbn [Background.pid_file Background.value Background.read_pid].
  rewrite Hread.
  split; [reflexivity|].
  destruct (Background.platform h) eqn:Hp.
  - destruct (Background.system_status h _ =? 0);
      cbn [Background.pid_file Background.read_pid Background.status_running
           Background.status_not_running];
      rewrite Hread;
      (split; [reflexivity|]); (split; [discriminate|]); intros _; repeat split.
  - destruct (Background.kill_raises h (Background.spawned h) 0) as [[m|m|m]|] eqn:Hprobe;
      cbn [Background.pid_file Background.status_failed Background.status_running
           Background.status_not_running Background.read_pid];
      rewrite Hread;
      (split; [reflexivity|]); (split; [|discriminate]); intros _.
    all: destruct (Background.kill_raises h (Background.spawned h) Background.SIGTERM)
           as [[m'|m'|m']|] eqn:Hterm;
      cbn; repeat split; try discriminate; try reflexivity; congruence.
Qed.

Lemma spawn_status_stop_witness :
  Background.pid_file
    (Background.stop_background_agent Background.int_of_text Background.quiet_host
       (Background.pid_file
          (Background.check_agent_status Background.int_of_text Background.quiet_host
             (Background.pid_file
                (Background.run_detached_background Background.quiet_host None)))))
  = None.
Proof.
  destruct (spawn_status_stop Background.int_of_text Background.quiet_host None
              int_of_text_show) as (_ & _ & Hposix & _).
  destruct (Hposix eq_refl) as (_ & _ & _ & _ & Hgone).
  apply Hgone. reflexivity.
Defined.

(** X16. [stop_background_agent] calls [os.kill] at most once, on posix
    only, with SIGTERM and with the integer read from the file as it was
    read: the sign of that integer is not checked, so which processes the
    signal reaches when it is not positive is left to [os.kill]. On win32 it
    runs taskkill for that integer and nothing else. It leaves the PID file
    as it was or removes it, and removes it exactly when the signal went
    through, or the process was reported gone, or always on win32. *)
Theorem stop_passes_recorded_pid (read_int : string -> Background.Error + Z)
    (h : Background.Host) (file : option string) :
  let r := Background.stop_background_agent read_int h file in
  let read := Background.read_pid read_int file in
  let term pid := Background.kill_raises h pid Background.SIGTERM in
  (forall pid sig,
      In (pid, sig) (Background.kills (Background.actions r)) ->
      read = inr pid /\ sig = Background.SIGTERM
      /\ Background.platform h = Background.posix)
  /\ (forall pid,
        read = inr pid -> Background.platform h = Background.posix ->
        Background.kills (Background.actions r) = [(pid, Background.SIGTERM)])
  /\ (forall c,
        In c (Background.commands (Background.actions r)) ->
        exists pid, read = inr pid
                    /\ c = "taskkill /F /PID " ++ show pid
                    /\ Background.platform h = Background.win32)
  /\ (Background.pid_file r = None \/ Background.pid_file r = file)
  /\ (Background.pid_file r = None <->
      file = None
      \/ (exists m, read = inl (Background.ProcessLookupError m))
      \/ exists pid,
          read = inr pid
          /\ (Background.platform h = Background.win32
              \/ term pid = None
              \/ exists m, term pid = Some (Background.ProcessLookupError m))).
Proof.
  cbv zeta. unfold Background.stop_background_agent.
  destruct (Background.read_pid read_int file) as [[m|m|m]|pid] eqn:Hread;
    [| | |destruct (Background.platform h) eqn:Hp;
          [|destruct (Background.kill_raises h pid Background.SIGTERM)
              as [[m|m|m]|] eqn:Hkill]];
    cbn [Background.stop_failed Background.stop_succeeded Background.remove_pid_file
         Background.pid_file Background.actions Background.kills Background.commands
         app In].
  all: split; [intros p sg Hin; try contradiction;
               destruct Hin as [[= <- <-]|[]]; repeat split|].
  all: split; [intros p Hp'; try discriminate Hp'; injection Hp' as <-;
               intros Hposix; first [discriminate Hposix | reflexivity]|].
  all: split; [intros c Hin; try contradiction;
               destruct Hin as [<-|[]]; exists pid; repeat split|].
  all: split; [tauto|].
  all: split.
  all: try (intros _; solve [ right; left; eauto
                            | right; right; exists pid; split; [reflexivity|]; eauto
                            | right; right; exists pid; split; [reflexivity|];
                              right; right; eauto ]).
  all: try reflexivity.
  all: try (intros Hnone; left; exact Hnone).
  all: intros [Hnone|[(m' & Hm)|(p & Hp' & Hrest)]];
    try exact Hnone; try discriminate; try congruence.
  all: try (subst file; cbn in Hread; discriminate Hread).
  all: injection Hp' as <-; destruct Hrest as [Hw|[Hk|(m' & Hk)]]; congruence.
Qed.

(** X17. [check_agent_status] never changes the PID file; it sends at
    most the null signal to the pid read from the file; it returns true
    exactly when a pid was read and the probe succeeded. *)
Theorem status_is_read_only (read_int : string -> Background.Error + Z)
    (h : Background.Host) (file : option string) :
  let r := Background.check_agent_status read_int h file in
  let read := Background.read_pid read_int file in
  let alive pid :=
    match Background.platform h with
    | Background.posix => Background.kill_raises h pid 0 = None
    | Background.win32 =>
        Background.system_status h (Background.tasklist_command pid) = 0
    end in
  Background.pid_file r = file
  /\ (forall pid sig,
        In (pid, sig) (Background.kills (Background.actions r)) ->
        read = inr pid /\ sig = 0)
  /\ (forall c,
        In c (Background.commands (Background.actions r)) ->
        exists pid, read = inr pid /\ c = Background.tasklist_command pid)
  /\ (Background.value r = true <-> exists pid, read = inr pid /\ alive pid)
  /\ (file = None -> Background.actions r
        = [Background.Print "No background agent PID file found. Agent is not running."]).
Proof.
  cbv zeta. unfold Background.check_agent_status.
  destruct (Background.read_pid read_int file) as [[m|m|m]|pid] eqn:Hread;
    [| | |destruct (Background.platform h) eqn:Hp;
          [destruct (Background.system_status h (Background.tasklist_command pid) =? 0)
             eqn:Hsys
          |destruct (Background.kill_raises h pid 0) as [[m|m|m]|] eqn:Hkill]];
    cbn [Background.status_failed Background.status_running
         Background.status_not_running
         Background.pid_file Background.actions Background.value
         Background.kills Background.commands app In].
  all: split; [reflexivity|].
  all: split; [intros p sg Hin; try contradiction;
               destruct Hin as [[= <- <-]|[]]; repeat split|].
  all: split; [intros c Hin; try contradiction;
               destruct Hin as [<-|[]]; exists pid; repeat split|].
  all: split;
    [|intros ->; cbn in Hread; first [discriminate Hread | congruence | reflexivity]].
  all: split.
  all: try discriminate.
  all: try (intros _; exists pid; split; [reflexivity|];
            first [apply Z.eqb_eq; exact Hsys | exact Hkill]).
  all: intros (p & Hp' & Halive); try discriminate Hp'.
  all: injection Hp' as <-.
  all: first [ apply Z.eqb_eq in Halive; congruence | congruence ].
Qed.

(** ** The order of an attempt *)

Lemma stages_app (t1 t2 : list Event) :
  stages (t1 ++ t2) = (stages t1 ++ stages t2)%list.
Proof.
  induction t1 as [|e t1 IH]; [reflexivity|].
  cbn [app stages]. destruct (stage e); cbn [app]; rewrite IH; reflexivity.
Qed.

Lemma selector_stages (tr : list Event) :
  Forall (fun e => selector_event e = true) tr ->
  stages tr = repeat 0%nat (List.length (stages tr)).
Proof.
  induction 1 as [|e tr He _ IH]; [reflexivity|].
  destruct e as [lvl m|n|c|sg]; cbn in *; try exact IH; try discriminate He.
  destruct c; try discriminate He. cbn. f_equal. exact IH.
Qed.

Lemma paced_stages (tr : list Event) :
  Forall (fun e => keep_alive_paced e = true) tr ->
  stages tr = repeat 4%nat (List.length (stages tr)).
Proof.
  induction 1 as [|e tr He _ IH]; [reflexivity|].
  destruct e as [lvl m|n|c|sg]; cbn [stages stage] in *; try exact IH.
  - cbn in He. rewrite He. cbn. f_equal. exact IH.
  - discriminate He.
Qed.

Lemma ascending_cons (a : nat) (l : list nat) :
  above a l = true -> ascending l = true -> ascending (a :: l) = true.
Proof.
  destruct l as [|b l]; [reflexivity|].
  intros Ha Hl. cbn [ascending]. cbn in Ha. rewrite Ha. exact Hl.
Qed.

Lemma above_repeat (a n k : nat) (l : list nat) :
  (a <= n)%nat -> above a l = true -> above a (repeat n k ++ l) = true.
Proof.
  intros Hle Hl. destruct k; [exact Hl|]. cbn. apply Nat.leb_le. exact Hle.
Qed.

Lemma ascending_repeat (n k : nat) (l : list nat) :
  above n l = true -> ascending l = true -> ascending (repeat n k ++ l) = true.
Proof.
  intros Ha Hl. induction k as [|k IH]; [exact Hl|].
  cbn [repeat app]. apply ascending_cons; [|exact IH].
  apply above_repeat; [apply Nat.le_refl | exact Ha].
Qed.

Ltac ascend :=
  repeat match goal with
         | |- ascending (repeat _ _ ++ _) = true => apply ascending_repeat
         | |- ascending (_ :: _) = true => apply ascending_cons
         | |- ascending [] = true => reflexivity
         | |- above _ (repeat _ _ ++ _) = true => apply above_repeat; [cbn; lia|]
         | |- above _ (_ :: _) = true => reflexivity
         | |- above _ [] = true => reflexivity
         | |- ascending (repeat ?n ?k) = true => rewrite <- (app_nil_r (repeat n k))
         | |- above _ (repeat ?n ?k) = true => rewrite <- (app_nil_r (repeat n k))
         end.

Ltac dig x ::=
  lazymatch x with
  | match ?y with _ => _ end => dig y
  | (match ?y with _ => _ end) _ => dig y
  | keep_alive_loop ?ts ?st =>
      let H := fresh "Hloop" in
      let H' := fresh "Hexit" in
      pose proof (keep_alive_loop_spec ts st) as H;
      pose proof (keep_alive_loop_exits ts st) as H';
      destruct (keep_alive_loop ts st) as [? ? ?];
      reduce_py_in H;
      destruct H as (? & ? & ? & ? & ? & ? & ? & ?);
      destruct H' as (_ & _ & _ & ? & _)
  | create_session_with_fallback ?w ?st =>
      let H := fresh "Hselector" in
      pose proof (create_session_with_fallback_runs w st) as H;
      destruct (create_session_with_fallback w st) as [? ? ?];
      destruct H as (-> & -> & ?)
  | _ => destruct x eqn:?
  end.

Ltac stage_traces :=
  repeat (progress (cbn [stages stage app Z.eqb Pos.eqb]; rewrite ?stages_app));
  repeat match goal with
         | H : Forall (fun e => selector_event e = true) ?t
           |- context [stages ?t] =>
             rewrite (selector_stages t H);
             generalize (Datatypes.length (stages t)); intro
         | H : Forall (fun e => keep_alive_paced e = true) ?t
           |- context [stages ?t] =>
             rewrite (paced_stages t H);
             generalize (Datatypes.length (stages t)); intro
         end;
  rewrite <- ?app_assoc; cbn [app].

(** X9. In every attempt the calls come in order: backend construction,
    avatar construction, avatar start, session start, keep-alive sleeps,
    release of the session, the 5 seconds before the re-raise. *)
Theorem attempt_runs_in_order (w : World) (f : Frame) :
  ascending (stages (trace (entrypoint w f))) = true.
Proof.
  assert (H : match entrypoint w f with
              | {| final := _; trace := tr; outcome := _ |} =>
                  ascending (stages tr) = true
              end).
  { destruct f as [[stop count] s a te ai].
    symex; stage_traces; ascend. }
  destruct (entrypoint w f). exact H.
Qed.
